(** * minimal_task: task extraction and archive merge

    A shallow embedding of the text-processing core of the plugin, in its
    version with the recurring section ([processTaskFile], [appendDoneTasks],
    [checkRepeatTaskDates]), and the properties of its specification.

    - JavaScript strings are sequences of UTF-16 code units: a string is a
      [list N], one number per code unit.
    - The vault is a finite map from paths to the contents of its files;
      [vault.read], [vault.modify] and [vault.create] are lookups and
      inserts.  The notifications that a write raises are not part of the
      model: each function is one pass.
    - The clock and the date library ([moment]) are a parameter that gives the
      formatted date of today and of tomorrow.
    - The three loops are folds of a step function over the lines, with the
      variables of the loop as the state. *)

From Stdlib Require Import NArith List Bool.
From stdpp Require Import gmap list strings.

Abbreviation jsstring := (list N).

(** ** String primitives of the host language *)

Module JS.

Local Open Scope N_scope.

(** An ASCII literal as a sequence of code units. *)
Definition lit (s : string) : jsstring :=
  map Ascii.N_of_ascii (String.list_ascii_of_string s).

(** [WhiteSpace] and [LineTerminator] of ECMAScript: the characters that
    [String.prototype.trim] removes and that [\s] matches. *)
Definition is_ws (c : N) : bool :=
  (c =? 9) || (c =? 10) || (c =? 11) || (c =? 12) || (c =? 13) || (c =? 32)
  || (c =? 160) || (c =? 5760) || ((8192 <=? c) && (c <=? 8202))
  || (c =? 8232) || (c =? 8233) || (c =? 8239) || (c =? 8287)
  || (c =? 12288) || (c =? 65279).

Fixpoint trimStart (s : jsstring) : jsstring :=
  match s with
  | c :: s' => if is_ws c then trimStart s' else s
  | [] => []
  end.

Definition trimEnd (s : jsstring) : jsstring := rev (trimStart (rev s)).

Definition trim (s : jsstring) : jsstring := trimEnd (trimStart s).

(** [s.startsWith(p)] *)
Fixpoint startsWith (s p : jsstring) {struct p} : bool :=
  match p with
  | [] => true
  | a :: p' =>
      match s with
      | b :: s' => (a =? b) && startsWith s' p'
      | [] => false
      end
  end.

(** [s.includes(p)] *)
Fixpoint includes (s p : jsstring) : bool :=
  startsWith s p
  || match s with
     | _ :: s' => includes s' p
     | [] => false
     end.

(** [s.split("\n")]: never the empty array. *)
Fixpoint split_nl (s : jsstring) : list jsstring :=
  match s with
  | [] => [[]]
  | c :: s' =>
      if c =? 10 then [] :: split_nl s'
      else match split_nl s' with
           | l :: ls => (c :: l) :: ls
           | [] => [[c]]
           end
  end.

(** [a.join("\n")] *)
Fixpoint join_nl (ls : list jsstring) : jsstring :=
  match ls with
  | [] => []
  | l :: ls' =>
      match ls' with
      | [] => l
      | _ :: _ => l ++ 10 :: join_nl ls'
      end
  end.

End JS.

Import JS.

(** ** The regular expressions of the plugin *)

Module Re.

Local Open Scope N_scope.

(** [[-*]] *)
Definition is_marker (c : N) : bool := (c =? 45) || (c =? 42).
(** [[xX]] *)
Definition is_x (c : N) : bool := (c =? 120) || (c =? 88).

(** The match of [/^\s*[-*]\s+\[[xX]\]/] against a line: [Some rest] when
    the pattern matches, with [rest] what follows the match.  Every
    quantifier is followed by an atom that no white space character matches,
    so the greedy match is the only one and no backtracking is involved. *)
Definition matchChecked (line : jsstring) : option jsstring :=
  match trimStart line with
  | m :: r1 =>
      if is_marker m then
        match r1 with
        | w :: _ =>
            if is_ws w then
              match trimStart r1 with
              | b :: r2 =>
                  if b =? 91 then
                    match r2 with
                    | x :: e :: rest =>
                        if is_x x && (e =? 93) then Some rest else None
                    | _ => None
                    end
                  else None
              | [] => None
              end
            else None
        | [] => None
        end
      else None
  | [] => None
  end.

(** [/^\s*[-*]\s+\[[xX]\]/.test(line)] *)
Definition testChecked (line : jsstring) : bool :=
  match matchChecked line with Some _ => true | None => false end.

(** [line.replace(/^\s*[-*]\s+\[[xX]\]\s*/, "")]: the trailing [\s*] takes
    all the white space after the check box. *)
Definition stripChecked (line : jsstring) : jsstring :=
  match matchChecked line with
  | Some rest => trimStart rest
  | None => line
  end.

(** Does [/[^)]+\)\s*$/] match at the start of [r] (the text after an
    opening parenthesis)?  [[^)]+] stops at the first closing parenthesis
    and cannot stop earlier, since [\)] must follow. *)
Fixpoint annotTail (r : jsstring) (nonempty : bool) : bool :=
  match r with
  | c :: r' =>
      if c =? 41 then nonempty && forallb is_ws r'
      else annotTail r' true
  | [] => false
  end.

(** [s.replace(/\([^)]+\)\s*$/, "")]: the leftmost match is replaced; it
    always runs to the end of the string. *)
Fixpoint stripAnnot (s : jsstring) : jsstring :=
  match s with
  | c :: s' =>
      if (c =? 40) && annotTail s' false then [] else c :: stripAnnot s'
  | [] => []
  end.

End Re.

Import Re.

(** ** The plugin *)

Definition REPEAT_HEADER : jsstring :=
  lit "### " ++ [48152; 48373; 32; 51089; 50629]%N.   (* "### 반복 작업" *)
Definition GENERAL_HEADER : jsstring :=
  lit "### " ++ [51068; 48152; 32; 51089; 50629]%N.   (* "### 일반 작업" *)
Definition HEADER_MARK : jsstring := lit "### ".

Record MinimalTaskSettings := {
  taskFile : jsstring;
  doneFile : jsstring;
  dateFormat : jsstring;
  autoOpenTaskFile : bool
}.

Definition DEFAULT_SETTINGS : MinimalTaskSettings :=
  {| taskFile := lit "task.md";
     doneFile := lit "task_done.md";
     dateFormat := [];
     autoOpenTaskFile := true |}.

(** [moment().format(f)] and [moment().add(1, 'day').format(f)]: the clock and
    the date library are outside the repository; one pass reads one instant. *)
Record Moment := {
  format_now : jsstring -> jsstring;
  format_tomorrow : jsstring -> jsstring
}.

(** [this.settings.dateFormat || "YYYY-MM-DD"] *)
Definition effectiveDateFormat (s : MinimalTaskSettings) : jsstring :=
  match dateFormat s with
  | [] => lit "YYYY-MM-DD"
  | _ :: _ => dateFormat s
  end.

(** [line.replace(...).replace(...).trim()] *)
Definition taskText (line : jsstring) : jsstring :=
  trim (stripAnnot (stripChecked line)).

(** [`- [ ] ${taskText} (${date})`] *)
Definition uncheckedLine (text date : jsstring) : jsstring :=
  lit "- [ ] " ++ text ++ lit " (" ++ date ++ lit ")".

(** *** [processTaskFile]: the extraction loop *)

Record ExtractState := {
  remaining : list jsstring;
  doneTasks : list jsstring;
  inRepeatSection : bool
}.

Definition extractInit : ExtractState :=
  {| remaining := []; doneTasks := []; inRepeatSection := false |}.

(** One iteration of [for (const line of lines)] in [processTaskFile]. *)
Definition extractStep (tomorrow : jsstring) (st : ExtractState)
    (line : jsstring) : ExtractState :=
  if decide (trim line = REPEAT_HEADER) then
    {| remaining := remaining st ++ [line];
       doneTasks := doneTasks st;
       inRepeatSection := true |}
  else if decide (trim line = GENERAL_HEADER) then
    {| remaining := remaining st ++ [line];
       doneTasks := doneTasks st;
       inRepeatSection := false |}
  else if startsWith line HEADER_MARK then
    {| remaining := remaining st ++ [line];
       doneTasks := doneTasks st;
       inRepeatSection := false |}
  else if testChecked line then
    if inRepeatSection st then
      {| remaining := remaining st ++ [uncheckedLine (taskText line) tomorrow];
         doneTasks := doneTasks st ++ [trim line];
         inRepeatSection := inRepeatSection st |}
    else
      {| remaining := remaining st;
         doneTasks := doneTasks st ++ [trim line];
         inRepeatSection := inRepeatSection st |}
  else
    {| remaining := remaining st ++ [line];
       doneTasks := doneTasks st;
       inRepeatSection := inRepeatSection st |}.

(** The Task Extractor: the loop of [processTaskFile] over the lines of the
    task document; [remaining] is the spec's keepLines, [doneTasks] its
    completedLines. *)
Definition extract (tomorrow : jsstring) (lines : list jsstring)
    : ExtractState :=
  fold_left (extractStep tomorrow) lines extractInit.

(** *** [appendDoneTasks]: the merge loop *)

Record MergeState := {
  newContent : list jsstring;
  inTargetSection : bool;
  sectionFound : bool
}.

Definition mergeInit : MergeState :=
  {| newContent := []; inTargetSection := false; sectionFound := false |}.

(** One iteration of the [for] loop of [appendDoneTasks]. *)
Definition mergeStep (tasks : list jsstring) (dateHeader : jsstring)
    (st : MergeState) (line : jsstring) : MergeState :=
  if decide (trim line = dateHeader) then
    {| newContent := newContent st ++ [line];
       inTargetSection := true;
       sectionFound := true |}
  else if inTargetSection st && startsWith line HEADER_MARK then
    {| newContent := (newContent st ++ tasks) ++ [line];
       inTargetSection := false;
       sectionFound := sectionFound st |}
  else
    {| newContent := newContent st ++ [line];
       inTargetSection := inTargetSection st;
       sectionFound := sectionFound st |}.

(** What follows the loop, up to the array that is joined. *)
Definition mergeFinish (tasks : list jsstring) (dateHeader : jsstring)
    (st : MergeState) : list jsstring :=
  if sectionFound st && inTargetSection st then
    newContent st ++ tasks
  else if negb (sectionFound st) then
    (match newContent st with
     | [] => newContent st
     | _ :: _ => newContent st ++ [[]]
     end) ++ dateHeader :: tasks
  else newContent st.

(** The Archive Merger on lines: [newContent] when the loop and the final
    [if] have run. *)
Definition mergeLines (linesInDone tasks : list jsstring)
    (dateHeader : jsstring) : list jsstring :=
  mergeFinish tasks dateHeader
    (fold_left (mergeStep tasks dateHeader) linesInDone mergeInit).

(** The vault holds files only: a path is either absent or a [TFile] with
    its content. *)
Abbreviation Vault := (gmap jsstring jsstring).

Definition appendDoneTasks (settings : MinimalTaskSettings) (m : Moment)
    (tasks : list jsstring) (dateFormat : jsstring) (vault : Vault) : Vault :=
  let dateHeader := lit "### " ++ format_now m dateFormat in
  let vault1 :=
    match vault !! doneFile settings with
    | Some _ => vault
    | None => <[doneFile settings := []]> vault
    end in
  match vault1 !! doneFile settings with
  | Some doneContent =>
      let linesInDone := split_nl doneContent in
      <[doneFile settings :=
          trim (join_nl (mergeLines linesInDone tasks dateHeader))]> vault1
  | None => vault1
  end.

(** [processTaskFile(file)]: the handler is called with an existing file; on
    a missing one the read fails and nothing is written. *)
Definition processTaskFile (settings : MinimalTaskSettings) (m : Moment)
    (file : jsstring) (vault : Vault) : Vault :=
  match vault !! file with
  | Some content =>
      let lines := split_nl content in
      let dateFormat := effectiveDateFormat settings in
      let st := extract (format_tomorrow m dateFormat) lines in
      match doneTasks st with
      | [] => vault
      | _ :: _ =>
          appendDoneTasks settings m (doneTasks st) dateFormat
            (<[file := join_nl (remaining st)]> vault)
      end
  | None => vault
  end.

(** *** [checkRepeatTaskDates] *)

Record CheckState := {
  updatedLines : list jsstring;
  checkInRepeat : bool;
  hasChanges : bool
}.

Definition checkInit : CheckState :=
  {| updatedLines := []; checkInRepeat := false; hasChanges := false |}.

(** One iteration of the loop of [checkRepeatTaskDates]. *)
Definition checkStep (today : jsstring) (st : CheckState)
    (line : jsstring) : CheckState :=
  if decide (trim line = REPEAT_HEADER) then
    {| updatedLines := updatedLines st ++ [line];
       checkInRepeat := true;
       hasChanges := hasChanges st |}
  else if decide (trim line = GENERAL_HEADER) then
    {| updatedLines := updatedLines st ++ [line];
       checkInRepeat := false;
       hasChanges := hasChanges st |}
  else if startsWith line HEADER_MARK then
    {| updatedLines := updatedLines st ++ [line];
       checkInRepeat := false;
       hasChanges := hasChanges st |}
  else if checkInRepeat st && testChecked line
          && includes line (lit "(" ++ today ++ lit ")") then
    {| updatedLines := updatedLines st ++ [uncheckedLine (taskText line) today];
       checkInRepeat := checkInRepeat st;
       hasChanges := true |}
  else
    {| updatedLines := updatedLines st ++ [line];
       checkInRepeat := checkInRepeat st;
       hasChanges := hasChanges st |}.

(** The Repeat-Date Checker on lines. *)
Definition rollCompletedToday (today : jsstring) (lines : list jsstring)
    : CheckState :=
  fold_left (checkStep today) lines checkInit.

Definition checkRepeatTaskDates (settings : MinimalTaskSettings) (m : Moment)
    (vault : Vault) : Vault :=
  match vault !! taskFile settings with
  | Some content =>
      let lines := split_nl content in
      let dateFormat := effectiveDateFormat settings in
      let today := format_now m dateFormat in
      let st := rollCompletedToday today lines in
      if hasChanges st then
        <[taskFile settings := join_nl (updatedLines st)]> vault
      else vault
  | None => vault
  end.


(** *** The handlers registered by [onload] and by the settings tab *)

(** The handler of the vault's [modify] event: a pass over the task file,
    nothing for any other file. *)
Definition onModify (settings : MinimalTaskSettings) (m : Moment)
    (path : jsstring) (vault : Vault) : Vault :=
  if decide (path = taskFile settings) then
    processTaskFile settings m path vault
  else vault.

(** [onChange] of the text fields of the settings tab: the value is stored
    trimmed. *)
Definition onTaskFileChange (value : jsstring) (settings : MinimalTaskSettings)
    : MinimalTaskSettings :=
  {| taskFile := trim value;
     doneFile := doneFile settings;
     dateFormat := dateFormat settings;
     autoOpenTaskFile := autoOpenTaskFile settings |}.

Definition onDoneFileChange (value : jsstring) (settings : MinimalTaskSettings)
    : MinimalTaskSettings :=
  {| taskFile := taskFile settings;
     doneFile := trim value;
     dateFormat := dateFormat settings;
     autoOpenTaskFile := autoOpenTaskFile settings |}.

Definition onDateFormatChange (value : jsstring)
    (settings : MinimalTaskSettings) : MinimalTaskSettings :=
  {| taskFile := taskFile settings;
     doneFile := doneFile settings;
     dateFormat := trim value;
     autoOpenTaskFile := autoOpenTaskFile settings |}.

(** ** The earlier version of the plugin

    [main_minimaltask_20250412.ts]: no sections; every checked task is moved
    to the archive with the time of the pass.  Its merge loop is the loop of
    [appendDoneTasks], statement for statement. *)

Module V20250412.

Record MinimalTaskSettings := {
  taskFile : jsstring;
  doneFile : jsstring;
  dateFormat : jsstring;
  timeFormat : jsstring
}.

Definition DEFAULT_SETTINGS : MinimalTaskSettings :=
  {| taskFile := lit "task.md";
     doneFile := lit "task_done.md";
     dateFormat := [];
     timeFormat := [] |}.

Record ExtractState := {
  remaining : list jsstring;
  doneTasks : list jsstring
}.

Definition extractInit : ExtractState :=
  {| remaining := []; doneTasks := [] |}.

(** One iteration of [for (const line of lines)]. *)
Definition extractStep (time : jsstring) (st : ExtractState)
    (line : jsstring) : ExtractState :=
  if testChecked line then
    {| remaining := remaining st;
       doneTasks :=
         doneTasks st ++ [trim line ++ lit " (" ++ time ++ lit ")"] |}
  else
    {| remaining := remaining st ++ [line];
       doneTasks := doneTasks st |}.

Definition extract (time : jsstring) (lines : list jsstring) : ExtractState :=
  fold_left (extractStep time) lines extractInit.

Definition processTaskFile (settings : MinimalTaskSettings) (m : Moment)
    (file : jsstring) (vault : Vault) : Vault :=
  match vault !! file with
  | Some content =>
      let lines := split_nl content in
      let dateFormat :=
        match dateFormat settings with
        | [] => lit "YYYY-MM-DD"
        | _ :: _ => dateFormat settings
        end in
      let timeFormat :=
        match timeFormat settings with
        | [] => lit "HH:mm"
        | _ :: _ => timeFormat settings
        end in
      let st := extract (format_now m timeFormat) lines in
      match doneTasks st with
      | [] => vault
      | _ :: _ =>
          let vault1 := <[file := join_nl (remaining st)]> vault in
          let dateHeader := lit "### " ++ format_now m dateFormat in
          let vault2 :=
            match vault1 !! doneFile settings with
            | Some _ => vault1
            | None => <[doneFile settings := []]> vault1
            end in
          match vault2 !! doneFile settings with
          | Some doneContent =>
              let linesInDone := split_nl doneContent in
              <[doneFile settings :=
                  trim (join_nl (mergeLines linesInDone (doneTasks st)
                                   dateHeader))]> vault2
          | None => vault2
          end
      end
  | None => vault
  end.

End V20250412.
(** ** Vocabulary of the properties *)

(** *** Strings *)

(** All the characters of [w] are white space. *)
Definition allws (w : jsstring) : Prop := forallb is_ws w = true.

(** A string without line feed, as every line of a split document is. *)
Definition nonl (s : jsstring) : Prop := 10%N ∉ s.

Definition nonempty (s : jsstring) : bool :=
  match s with [] => false | _ :: _ => true end.

(** Every opening parenthesis of [s] has a closing one after it in [s]. *)
Fixpoint closed (s : jsstring) : bool :=
  match s with
  | c :: s' =>
      (if (c =? 40)%N then existsb (fun d => (d =? 41)%N) s' else true)
      && closed s'
  | [] => true
  end.

(** No closing parenthesis in [s]. *)
Definition noclose (s : jsstring) : bool :=
  forallb (fun d => negb (d =? 41)%N) s.

(** *** Task lines *)

(** A checked task line with a trailing annotation, field by field:
    indentation, list marker, white space, check box, white space, task text,
    white space, the parenthesized annotation, white space. *)
Record CheckedTask := {
  indent : jsstring;
  marker : N;
  gap : jsstring;
  mark : N;
  pad : jsstring;
  text : jsstring;
  sep : jsstring;
  annotation : jsstring;
  trailing : jsstring
}.

Definition render (t : CheckedTask) : jsstring :=
  indent t ++ marker t :: gap t
  ++ 91%N :: mark t :: 93%N :: pad t
  ++ text t ++ sep t ++ 40%N :: annotation t ++ 41%N :: trailing t.

(** The fields are what the data model says: white space where white space is
    meant, a text without surrounding white space whose parentheses are
    closed, an annotation that is one parenthesized group. *)
Definition wellFormed (t : CheckedTask) : bool :=
  forallb is_ws (indent t) && is_marker (marker t)
  && nonempty (gap t) && forallb is_ws (gap t)
  && is_x (mark t) && forallb is_ws (pad t)
  && bool_decide (trim (text t) = text t) && closed (text t)
  && forallb is_ws (sep t)
  && nonempty (annotation t) && noclose (annotation t)
  && forallb is_ws (trailing t).

(** The text that [/\([^)]+\)\s*$/] matches in a task line, trimmed: its
    trailing annotation, empty when there is none. *)
Definition trailingAnnotation (line : jsstring) : jsstring :=
  let s := stripChecked line in
  trim (drop (length (stripAnnot s)) s).

(** *** The task document *)

(** A section header of the task document, as the loops test it. *)
Definition isHeader (line : jsstring) : Prop :=
  trim line = REPEAT_HEADER \/ trim line = GENERAL_HEADER
  \/ startsWith line HEADER_MARK = true.

(** The section state after a line, as both loops over the task document
    update it. *)
Definition nextSection (inRepeat : bool) (line : jsstring) : bool :=
  if decide (trim line = REPEAT_HEADER) then true
  else if decide (trim line = GENERAL_HEADER) then false
  else if startsWith line HEADER_MARK then false
  else inRepeat.

(** A line that the extraction loop keeps as it is: a header, or a line that
    is not a checked task. *)
Definition kept (line : jsstring) : Prop :=
  isHeader line \/ testChecked line = false.

(** A state that continues the extraction in section [b] with nothing
    emitted. *)
Definition resume (b : bool) : ExtractState :=
  {| remaining := []; doneTasks := []; inRepeatSection := b |}.

(** The test of [checkRepeatTaskDates] on a line of section state
    [inRepeat]. *)
Definition rewrites (today : jsstring) (inRepeat : bool) (line : jsstring)
    : bool :=
  inRepeat && testChecked line && includes line (lit "(" ++ today ++ lit ")").

(** The line that [checkRepeatTaskDates] emits for [line]. *)
Definition checkedOutput (today : jsstring) (inRepeat : bool)
    (line : jsstring) : jsstring :=
  if rewrites today inRepeat line then uncheckedLine (taskText line) today
  else line.

(** The lines emitted by the loop of [checkRepeatTaskDates], by recursion on
    the document. *)
Fixpoint rolled (today : jsstring) (inRepeat : bool) (lines : list jsstring)
    : list jsstring :=
  match lines with
  | [] => []
  | l :: ls =>
      checkedOutput today inRepeat l :: rolled today (nextSection inRepeat l) ls
  end.

(** Whether the loop rewrites some line. *)
Fixpoint anyRewrite (today : jsstring) (inRepeat : bool)
    (lines : list jsstring) : bool :=
  match lines with
  | [] => false
  | l :: ls =>
      rewrites today inRepeat l || anyRewrite today (nextSection inRepeat l) ls
  end.

(** *** The archive *)

(** A line of the archive that opens the target section. *)
Definition isTarget (dateHeader line : jsstring) : Prop :=
  trim line = dateHeader.

#[global] Instance isTarget_dec dateHeader line :
  Decision (isTarget dateHeader line) :=
  decide (trim line = dateHeader).

(** A line that does not start with the header mark, so it cannot close a
    section of the archive. *)
Definition notMark (line : jsstring) : Prop :=
  startsWith line HEADER_MARK = false.

(** The rest of a document after a section body: nothing, or lines that
    begin with a header line. *)
Definition startsSection (rest : list jsstring) : Prop :=
  rest = [] \/ exists g r, rest = g :: r /\ startsWith g HEADER_MARK = true.

(** The line [t] is in a section of the date header: below a target line
    [h], with no header line between the two. *)
Definition underSection (dateHeader t : jsstring) (result : list jsstring)
    : Prop :=
  exists A h B C,
    result = A ++ h :: B ++ t :: C
    /\ isTarget dateHeader h /\ Forall notMark B.

(** No completed line after a later duplicate of the date header: whenever
    the result has a target line [d] with another one before it, none of the
    tasks is below [d]. *)
Definition noTaskAfterDuplicate (tasks : list jsstring) (dateHeader : jsstring)
    (result : list jsstring) : Prop :=
  forall A d B,
    result = A ++ d :: B -> isTarget dateHeader d ->
    Exists (isTarget dateHeader) A ->
    Forall (fun t => t ∉ B) tasks.

(** *** Documents of the examples *)

(** The clock of the examples: today is 2024-01-02. *)
Definition exampleMoment : Moment :=
  {| format_now := fun _ => lit "2024-01-02";
     format_tomorrow := fun _ => lit "2024-01-03" |}.

(** The task of the example of the specification. *)
Definition drinkWater : jsstring := lit "- [x] Drink water (2024-01-01)".

(** The same task with another marker, indentation and spacing. *)
Definition indentedTask : CheckedTask :=
  {| indent := lit "  "; marker := 42%N; gap := lit " "; mark := 88%N;
     pad := lit "  "; text := lit "Drink water"; sep := lit "   ";
     annotation := lit "2024-01-01"; trailing := lit " " |}.

(** A recurring task left checked with the date of today. *)
Definition todayTask : CheckedTask :=
  {| indent := []; marker := 45%N; gap := lit " "; mark := 120%N;
     pad := lit " "; text := lit "Drink water"; sep := lit " ";
     annotation := lit "2024-01-02"; trailing := [] |}.

(** A checked recurring task that mentions today in its text and carries
    another date as its annotation. *)
Definition reviewLine : jsstring :=
  lit "- [x] Review (2024-01-02) notes (2024-01-05)".

(** A task document without any checked task. *)
Definition uncheckedDocument : jsstring :=
  GENERAL_HEADER ++ 10%N :: lit "- [ ] Buy milk".

(** An archive with the section of another day. *)
Definition olderArchive : list jsstring :=
  [lit "### 2024-01-01"; lit "- [x] old"].

(** An archive with the section of the day, followed by an older one. *)
Definition todayArchive : list jsstring :=
  [lit "notes"; lit "### 2024-01-02"; lit "- [x] early"; [];
   lit "### 2024-01-01"; lit "- [x] old"].

(** An archive where the header of the day occurs twice. *)
Definition duplicatedArchive : list jsstring :=
  [lit "### 2024-01-02"; lit "- [x] a"; lit "### 2024-01-02"; lit "- [x] b"].

(** An archive document that begins with two blank lines. *)
Definition leadingBlankArchive : jsstring := [10; 10]%N ++ lit "notes".

(** *** More vocabulary *)

(** The lines that the merge emits from section state [inTarget] on, by
    recursion on the archive, when the target section is known to exist. *)
Fixpoint mergeOut (tasks : list jsstring) (dateHeader : jsstring)
    (inTarget : bool) (lines : list jsstring) : list jsstring :=
  match lines with
  | [] => if inTarget then tasks else []
  | l :: ls =>
      if decide (trim l = dateHeader) then
        l :: mergeOut tasks dateHeader true ls
      else if inTarget && startsWith l HEADER_MARK then
        tasks ++ l :: mergeOut tasks dateHeader false ls
      else l :: mergeOut tasks dateHeader inTarget ls
  end.

(** The line that the extraction of the recurring section puts in the place
    of [line]. *)
Definition rewritten (tomorrow line : jsstring) : jsstring :=
  if testChecked line then uncheckedLine (taskText line) tomorrow else line.

(** A completed line with the time of the pass, as the earlier version
    archives it. *)
Definition stamped (time line : jsstring) : jsstring :=
  line ++ lit " (" ++ time ++ lit ")".

(** A settings record whose task file is not its archive. *)
Definition otherArchive : MinimalTaskSettings :=
  {| taskFile := lit "todo.md";
     doneFile := lit "done.md";
     dateFormat := lit "DD.MM.YYYY";
     autoOpenTaskFile := false |}.

(** The task document of the example with a checked task of the general
    section after it. *)
Definition mixedDocument : jsstring :=
  REPEAT_HEADER ++ 10%N :: drinkWater ++ 10%N :: GENERAL_HEADER
  ++ 10%N :: lit "- [x] Call mom".

(** The settings of the earlier version used in the examples. *)
Definition earlierSettings : V20250412.MinimalTaskSettings :=
  V20250412.DEFAULT_SETTINGS.

(** The clock of the earlier version's example: the date for a date format,
    the time of day for [HH:mm]. *)
Definition earlierMoment : Moment :=
  {| format_now := fun f =>
       if decide (f = lit "HH:mm") then lit "09:30" else lit "2024-01-02";
     format_tomorrow := fun _ => lit "2024-01-03" |}.

(** The task document of the example of the specification. *)
Definition exampleDocument : jsstring := REPEAT_HEADER ++ 10%N :: drinkWater.

(** The header of the day of the example. *)
Definition exampleHeader : jsstring := lit "### 2024-01-02".

(** * Properties *)

(** ** Facts about the string primitives *)

Module JSFacts.

Local Open Scope N_scope.

Lemma allws_nil : allws [].
Proof. reflexivity. Qed.

Lemma allws_cons c w : allws (c :: w) <-> is_ws c = true /\ allws w.
Proof. unfold allws; simpl. apply andb_true_iff. Qed.

Lemma allws_app a b : allws (a ++ b) <-> allws a /\ allws b.
Proof. unfold allws. rewrite forallb_app. apply andb_true_iff. Qed.

Lemma allws_rev w : allws w -> allws (rev w).
Proof.
  unfold allws. rewrite !forallb_forall.
  intros H x Hx. apply H. by apply in_rev.
Qed.

Lemma trimStart_allws w : allws w -> trimStart w = [].
Proof.
  induction w as [|c w IH]; [done|].
  intros [Hc Hw]%allws_cons. simpl. rewrite Hc. auto.
Qed.

Lemma trimStart_nil_allws s : trimStart s = [] -> allws s.
Proof.
  induction s as [|c s IH]; [done|]. simpl.
  destruct (is_ws c) eqn:E; [|done].
  intros H. apply allws_cons. auto.
Qed.

Lemma trimStart_app_ws w s : allws w -> trimStart (w ++ s) = trimStart s.
Proof.
  induction w as [|c w IH]; [done|].
  intros [Hc Hw]%allws_cons. simpl. rewrite Hc. auto.
Qed.

Lemma trimStart_nonws c s : is_ws c = false -> trimStart (c :: s) = c :: s.
Proof. simpl. by intros ->. Qed.

Lemma trimStart_head s c r : trimStart s = c :: r -> is_ws c = false.
Proof.
  induction s as [|d s IH]; [done|]. simpl.
  destruct (is_ws d) eqn:E; [auto|]. by intros [= <- <-].
Qed.

Lemma trimStart_app_keep s t :
  trimStart s <> [] -> trimStart (s ++ t) = trimStart s ++ t.
Proof.
  induction s as [|d s IH]; [done|]. simpl.
  destruct (is_ws d); auto.
Qed.

Lemma trimStart_snoc_nonws a c :
  is_ws c = false -> trimStart (a ++ [c]) = trimStart a ++ [c].
Proof.
  intros Hc. induction a as [|d a IH]; simpl.
  - by rewrite Hc.
  - destruct (is_ws d); auto.
Qed.

Lemma trimEnd_app_ws s w : allws w -> trimEnd (s ++ w) = trimEnd s.
Proof.
  intros Hw. unfold trimEnd.
  rewrite rev_app_distr, trimStart_app_ws; auto using allws_rev.
Qed.

Lemma trimEnd_cons_nonws c s :
  is_ws c = false -> trimEnd (c :: s) = c :: trimEnd s.
Proof.
  intros Hc. unfold trimEnd. simpl rev.
  rewrite trimStart_snoc_nonws by done.
  rewrite rev_app_distr. reflexivity.
Qed.

Lemma trimEnd_snoc_nonws s c :
  is_ws c = false -> trimEnd (s ++ [c]) = s ++ [c].
Proof.
  intros Hc. unfold trimEnd. rewrite rev_app_distr. simpl.
  rewrite Hc. simpl. by rewrite rev_involutive.
Qed.

Lemma trim_app_ws_l w s : allws w -> trim (w ++ s) = trim s.
Proof. intros Hw. unfold trim. by rewrite trimStart_app_ws. Qed.

Lemma trim_app_ws_r s w : allws w -> trim (s ++ w) = trim s.
Proof.
  intros Hw. unfold trim.
  destruct (trimStart s) as [|c r] eqn:E.
  - apply trimStart_nil_allws in E.
    rewrite trimStart_allws; [done|]. apply allws_app. auto.
  - rewrite trimStart_app_keep by (rewrite E; done).
    rewrite E. by apply trimEnd_app_ws.
Qed.

Lemma trim_allws w : allws w -> trim w = [].
Proof. intros Hw. unfold trim. by rewrite trimStart_allws. Qed.

Lemma trim_head s c r : trim s = c :: r -> is_ws c = false.
Proof.
  unfold trim. destruct (trimStart s) as [|d t] eqn:E; [done|].
  pose proof (trimStart_head _ _ _ E) as Hd.
  rewrite trimEnd_cons_nonws by done. by intros [= <- _].
Qed.

(** A string that starts and ends with a character that is not white space
    is its own trim. *)
Lemma trim_bounded c mid d :
  is_ws c = false -> is_ws d = false ->
  trim (c :: mid ++ [d]) = c :: mid ++ [d].
Proof.
  intros Hc Hd. unfold trim. rewrite trimStart_nonws by done.
  apply (trimEnd_snoc_nonws (c :: mid)). done.
Qed.

Lemma startsWith_app p r : startsWith (p ++ r) p = true.
Proof.
  induction p as [|a p IH]; [done|]. simpl.
  rewrite N.eqb_refl. exact IH.
Qed.

Lemma startsWith_inv s p : startsWith s p = true -> exists r, s = p ++ r.
Proof.
  revert s. induction p as [|a p IH]; intros s; simpl.
  - by exists s.
  - destruct s as [|b s]; [done|].
    intros [Hab Hs]%andb_true_iff. apply N.eqb_eq in Hab as ->.
    destruct (IH _ Hs) as [r ->]. by exists r.
Qed.

Lemma includes_unfold s p :
  includes s p
  = startsWith s p || match s with _ :: s' => includes s' p | [] => false end.
Proof. by destruct s. Qed.

Lemma includes_app a p b : includes (a ++ p ++ b) p = true.
Proof.
  induction a as [|c a IH]; cbn [app]; rewrite includes_unfold.
  - by rewrite startsWith_app.
  - cbv beta iota. rewrite IH. apply orb_true_r.
Qed.

(** *** Trimming twice *)

Lemma trimStart_idem s : trimStart (trimStart s) = trimStart s.
Proof.
  destruct (trimStart s) as [|c r] eqn:E; [done|].
  apply trimStart_nonws. by apply trimStart_head in E.
Qed.

Lemma trimEnd_idem s : trimEnd (trimEnd s) = trimEnd s.
Proof.
  unfold trimEnd. by rewrite rev_involutive, trimStart_idem.
Qed.

Lemma trim_idem s : trim (trim s) = trim s.
Proof.
  unfold trim. destruct (trimStart s) as [|c r] eqn:E; [done|].
  apply trimStart_head in E.
  rewrite trimEnd_cons_nonws, trimStart_nonws, trimEnd_cons_nonws by done.
  by rewrite trimEnd_idem.
Qed.

(** *** What trimming removes *)

Lemma trimStart_decompose s : exists w, allws w /\ s = w ++ trimStart s.
Proof.
  induction s as [|c s (w & Hw & IH)].
  - by exists [].
  - cbn [trimStart]. destruct (is_ws c) eqn:E.
    + exists (c :: w). split; [by apply allws_cons|].
      cbn [app]. by rewrite <- IH.
    + by exists [].
Qed.

Lemma trimEnd_decompose s : exists w, allws w /\ s = trimEnd s ++ w.
Proof.
  destruct (trimStart_decompose (rev s)) as (w & Hw & E).
  exists (rev w). split; [by apply allws_rev|].
  unfold trimEnd. rewrite <- rev_app_distr, <- E. by rewrite rev_involutive.
Qed.

(** [trim] removes a run of white space at each end and nothing else. *)
Lemma trim_decompose s :
  exists w1 w2, allws w1 /\ allws w2 /\ s = w1 ++ trim s ++ w2.
Proof.
  destruct (trimStart_decompose s) as (w1 & H1 & E1).
  destruct (trimEnd_decompose (trimStart s)) as (w2 & H2 & E2).
  exists w1, w2. repeat split; [done..|].
  unfold trim. by rewrite <- E2.
Qed.

(** A string that trimming leaves alone, after any prefix: only the white
    space at the start of the prefix goes. *)
Lemma trimEnd_app_keep x h :
  h <> [] -> trimEnd h = h -> trimEnd (x ++ h) = x ++ h.
Proof.
  intros Hne Hh. unfold trimEnd in *. rewrite rev_app_distr.
  assert (E : trimStart (rev h) = rev h).
  { rewrite <- Hh at 2. by rewrite rev_involutive. }
  rewrite trimStart_app_keep.
  - by rewrite E, <- rev_app_distr, rev_involutive.
  - rewrite E. intros Hr. apply Hne.
    by rewrite <- (rev_involutive h), Hr.
Qed.

Lemma trim_fixed_ends h :
  h <> [] -> trim h = h -> trimStart h = h /\ trimEnd h = h.
Proof.
  intros Hne Hh. destruct h as [|c r]; [done|].
  pose proof (trim_head _ _ _ Hh) as Hc.
  assert (E : trimStart (c :: r) = c :: r) by by apply trimStart_nonws.
  split; [exact E|]. unfold trim in Hh. by rewrite E in Hh.
Qed.

Lemma trim_app_core a h :
  h <> [] -> trimStart h = h -> trimEnd h = h ->
  trim (a ++ h) = trimStart a ++ h.
Proof.
  intros Hne Hs He. unfold trim.
  destruct (trimStart a) as [|c r] eqn:E.
  - apply trimStart_nil_allws in E.
    rewrite trimStart_app_ws, Hs by done. exact He.
  - rewrite trimStart_app_keep by (rewrite E; done). rewrite E.
    by apply trimEnd_app_keep.
Qed.

(** *** Splitting into lines and joining them *)

Lemma split_nl_nonempty s : split_nl s <> [].
Proof.
  destruct s as [|c s]; [done|]. cbn [split_nl].
  destruct (c =? 10); [done|]. by destruct (split_nl s).
Qed.

Lemma join_nl_cons l ls : ls <> [] -> join_nl (l :: ls) = l ++ 10 :: join_nl ls.
Proof. by destruct ls. Qed.

Lemma join_nl_cons_char c l ls :
  join_nl ((c :: l) :: ls) = c :: join_nl (l :: ls).
Proof. by destruct ls. Qed.

Lemma join_nl_app a b :
  a <> [] -> b <> [] -> join_nl (a ++ b) = join_nl a ++ 10 :: join_nl b.
Proof.
  intros Ha Hb. induction a as [|l a IH]; [done|].
  destruct a as [|l' a].
  - cbn [app]. by rewrite join_nl_cons.
  - change ((l :: l' :: a) ++ b) with (l :: ((l' :: a) ++ b)).
    rewrite join_nl_cons by done. rewrite IH by done.
    rewrite (join_nl_cons l (l' :: a)) by done.
    by rewrite <- app_assoc.
Qed.

(** The joined text ends as its last line does. *)
Lemma join_nl_trimEnd ls :
  ls <> [] -> Forall (fun t => t <> [] /\ trim t = t) ls ->
  join_nl ls <> [] /\ trimEnd (join_nl ls) = join_nl ls.
Proof.
  intros Hne H. induction H as [|l ls [Hl Ht] Hls IH]; [done|].
  destruct (trim_fixed_ends l Hl Ht) as [_ He].
  destruct ls as [|l' ls]; [done|].
  rewrite join_nl_cons by done.
  destruct IH as [IH1 IH2]; [done|].
  split; [by destruct l|].
  change (l ++ 10 :: join_nl (l' :: ls))
    with (l ++ [10] ++ join_nl (l' :: ls)).
  rewrite app_assoc. by apply trimEnd_app_keep.
Qed.

(** Joining the lines of a document gives the document back. *)
Lemma join_split s : join_nl (split_nl s) = s.
Proof.
  induction s as [|c s IH]; [done|]. cbn [split_nl].
  destruct (N.eqb_spec c 10) as [->|Hc].
  - rewrite join_nl_cons by apply split_nl_nonempty. by rewrite IH.
  - pose proof (split_nl_nonempty s) as Hne.
    destruct (split_nl s) as [|l ls]; [done|].
    by rewrite join_nl_cons_char, IH.
Qed.

End JSFacts.

Import JSFacts.

(** ** Facts about the regular expressions *)

Module ReFacts.

Local Open Scope N_scope.

Lemma marker_not_ws m : is_marker m = true -> is_ws m = false.
Proof.
  unfold is_marker.
  intros [->%N.eqb_eq | ->%N.eqb_eq]%orb_true_iff; reflexivity.
Qed.

Lemma ws_not_open c : is_ws c = true -> (c =? 40) = false.
Proof.
  intros H. destruct (N.eqb_spec c 40) as [->|]; [|done].
  vm_compute in H. discriminate.
Qed.

Lemma matchChecked_marker line rest :
  matchChecked line = Some rest ->
  exists m r, trimStart line = m :: r /\ is_marker m = true.
Proof.
  unfold matchChecked. destruct (trimStart line) as [|m r]; [done|].
  destruct (is_marker m) eqn:E; [|done]. eauto.
Qed.

(** The match on a line laid out as the pattern reads. *)
Lemma matchChecked_shape indent m gap x rest :
  allws indent -> is_marker m = true -> gap <> [] -> allws gap ->
  is_x x = true ->
  matchChecked (indent ++ m :: gap ++ 91 :: x :: 93 :: rest) = Some rest.
Proof.
  intros Hi Hm Hne Hg Hx. unfold matchChecked.
  rewrite trimStart_app_ws, trimStart_nonws by auto using marker_not_ws.
  rewrite Hm. destruct gap as [|w gap]; [done|].
  apply allws_cons in Hg as Hg'. destruct Hg' as [Hw _].
  cbn [app]. rewrite Hw.
  change (w :: gap ++ 91 :: x :: 93 :: rest)
    with ((w :: gap) ++ 91 :: x :: 93 :: rest).
  rewrite trimStart_app_ws, trimStart_nonws by done.
  by rewrite Hx.
Qed.

Lemma closed_allws w : allws w -> closed w = true.
Proof.
  induction w as [|c w IH]; [done|].
  intros [Hc Hw]%allws_cons. simpl.
  rewrite (ws_not_open _ Hc). auto.
Qed.

Lemma closed_app a b :
  closed a = true -> closed b = true -> closed (a ++ b) = true.
Proof.
  intros Ha Hb. induction a as [|c a IH]; [done|].
  simpl in *. apply andb_true_iff in Ha as [Hc Ha].
  rewrite IH by done. rewrite andb_true_r.
  destruct (c =? 40); [|done].
  rewrite existsb_app, Hc. done.
Qed.

Lemma annotTail_closed r z ne :
  existsb (fun d => d =? 41) r = true -> forallb is_ws z = false ->
  annotTail (r ++ z) ne = false.
Proof.
  intros Hr Hz. revert ne. induction r as [|c r IH]; intros ne; [done|].
  simpl in *. destruct (c =? 41).
  - rewrite forallb_app, Hz, andb_false_r. apply andb_false_r.
  - apply IH. exact Hr.
Qed.

Lemma annotTail_match annot w ne :
  noclose annot = true -> ne = true \/ annot <> [] -> allws w ->
  annotTail (annot ++ 41 :: w) ne = true.
Proof.
  intros Ha Hne Hw. revert ne Hne.
  induction annot as [|c annot IH]; intros ne Hne; simpl.
  - destruct Hne as [->|]; [|done]. exact Hw.
  - simpl in Ha. apply andb_true_iff in Ha as [Hc Ha].
    apply negb_true_iff in Hc. rewrite Hc. apply IH; auto.
Qed.

Lemma stripAnnot_closed t y :
  closed t = true -> forallb is_ws y = false ->
  stripAnnot (t ++ y) = t ++ stripAnnot y.
Proof.
  intros Ht Hy. induction t as [|c t IH]; [done|].
  simpl in *. apply andb_true_iff in Ht as [Hc Ht].
  rewrite IH by done. destruct (c =? 40); [|done].
  by rewrite annotTail_closed.
Qed.

Lemma stripAnnot_annot annot w :
  annot <> [] -> noclose annot = true -> allws w ->
  stripAnnot (40 :: annot ++ 41 :: w) = [].
Proof.
  intros Hne Ha Hw. simpl. rewrite annotTail_match; auto.
Qed.

End ReFacts.

Import ReFacts.

Module LineFacts.

Local Open Scope N_scope.

Lemma checked_not_header line : testChecked line = true -> ~ isHeader line.
Proof.
  unfold testChecked. destruct (matchChecked line) as [rest|] eqn:E; [|done].
  intros _. destruct (matchChecked_marker _ _ E) as (m & r & Hts & Hm).
  pose proof (marker_not_ws _ Hm) as Hws.
  assert (Htrim : trim line = m :: trimEnd r).
  { unfold trim. rewrite Hts. by apply trimEnd_cons_nonws. }
  assert (Hm35 : m <> 35) by (intros ->; vm_compute in Hm; discriminate).
  intros [H|[H|H]].
  - rewrite Htrim in H.
    change REPEAT_HEADER with (35 :: tl REPEAT_HEADER) in H. congruence.
  - rewrite Htrim in H.
    change GENERAL_HEADER with (35 :: tl GENERAL_HEADER) in H. congruence.
  - apply startsWith_inv in H as [r' ->].
    change (HEADER_MARK ++ r') with (35 :: (tl HEADER_MARK ++ r')) in Hts.
    rewrite trimStart_nonws in Hts by reflexivity. congruence.
Qed.

Lemma testChecked_render t :
  wellFormed t = true -> testChecked (render t) = true.
Proof.
  unfold wellFormed. rewrite !andb_true_iff.
  intros [[[[[[[[[[[Hi Hm] Hg1] Hg2] Hx] _] _] _] _] _] _] _].
  unfold testChecked, render. rewrite matchChecked_shape; auto.
  by destruct (gap t).
Qed.

(** The task text of a well-formed line is its text field: marker,
    indentation, check box and annotation are gone. *)
Lemma taskText_render t : wellFormed t = true -> taskText (render t) = text t.
Proof.
  unfold wellFormed. rewrite !andb_true_iff.
  intros [[[[[[[[[[[Hi Hm] Hg1] Hg2] Hx] Hp] Ht] Hc] Hs] Ha1] Ha2] Htr].
  apply bool_decide_eq_true in Ht.
  unfold taskText, stripChecked, render.
  rewrite matchChecked_shape by (auto; by destruct (gap t)).
  rewrite trimStart_app_ws by done.
  assert (Hy : forallb is_ws (40 :: annotation t ++ 41 :: trailing t) = false)
    by reflexivity.
  destruct (text t) as [|c r] eqn:Etext.
  - cbn [app]. rewrite trimStart_app_ws, trimStart_nonws by done.
    rewrite stripAnnot_annot; auto. by destruct (annotation t).
  - pose proof (trim_head _ _ _ Ht) as Hcw.
    change ((c :: r) ++ sep t ++ 40 :: annotation t ++ 41 :: trailing t)
      with (c :: (r ++ sep t ++ 40 :: annotation t ++ 41 :: trailing t)).
    rewrite trimStart_nonws by done.
    change (c :: (r ++ sep t ++ 40 :: annotation t ++ 41 :: trailing t))
      with ((c :: r) ++ sep t ++ 40 :: annotation t ++ 41 :: trailing t).
    rewrite app_assoc, stripAnnot_closed; auto using closed_app, closed_allws.
    rewrite stripAnnot_annot by (auto; by destruct (annotation t)).
    rewrite app_nil_r, trim_app_ws_r by done. exact Ht.
Qed.

End LineFacts.

Import LineFacts.

(** ** The extraction loop *)

Module ExtractFacts.

Section Loop.

Variable tomorrow : jsstring.

(** The step only appends to the two arrays, and what it appends depends
    on the state through [inRepeatSection] alone. *)
Lemma extractStep_frame st line :
  extractStep tomorrow st line =
  let r := extractStep tomorrow (resume (inRepeatSection st)) line in
  {| remaining := remaining st ++ remaining r;
     doneTasks := doneTasks st ++ doneTasks r;
     inRepeatSection := inRepeatSection r |}.
Proof.
  destruct st as [k d b]. unfold extractStep, resume.
  cbn [remaining doneTasks inRepeatSection].
  repeat case_decide; try (by rewrite ?app_nil_r).
  destruct (startsWith line HEADER_MARK); [by rewrite ?app_nil_r|].
  destruct (testChecked line), b;
    cbn [remaining doneTasks inRepeatSection app]; by rewrite ?app_nil_r.
Qed.

Lemma extract_fold_frame lines st :
  fold_left (extractStep tomorrow) lines st =
  let r := fold_left (extractStep tomorrow) lines
             (resume (inRepeatSection st)) in
  {| remaining := remaining st ++ remaining r;
     doneTasks := doneTasks st ++ doneTasks r;
     inRepeatSection := inRepeatSection r |}.
Proof.
  revert st. induction lines as [|l ls IH]; intros st; simpl.
  - rewrite !app_nil_r. by destruct st.
  - rewrite IH.
    rewrite (IH (extractStep tomorrow (resume (inRepeatSection st)) l)).
    rewrite (extractStep_frame st l). simpl.
    by rewrite !app_assoc.
Qed.

Lemma extractStep_kept st line :
  kept line ->
  remaining (extractStep tomorrow st line) = remaining st ++ [line]
  /\ doneTasks (extractStep tomorrow st line) = doneTasks st.
Proof.
  unfold kept, isHeader, extractStep.
  intros H. repeat case_decide; try done.
  destruct (startsWith line HEADER_MARK) eqn:Es; [done|].
  destruct (testChecked line) eqn:Et; [|done].
  exfalso. destruct H as [[?|[?|?]]|?]; congruence.
Qed.

Lemma extractStep_checked st line :
  testChecked line = true ->
  extractStep tomorrow st line =
  if inRepeatSection st then
    {| remaining :=
         remaining st ++ [uncheckedLine (taskText line) tomorrow];
       doneTasks := doneTasks st ++ [trim line];
       inRepeatSection := inRepeatSection st |}
  else
    {| remaining := remaining st;
       doneTasks := doneTasks st ++ [trim line];
       inRepeatSection := inRepeatSection st |}.
Proof.
  intros Ht. pose proof (checked_not_header _ Ht) as Hh.
  unfold isHeader in Hh. unfold extractStep.
  repeat case_decide; try tauto.
  destruct (startsWith line HEADER_MARK); [tauto|].
  by rewrite Ht.
Qed.

Lemma extract_fold_kept lines st :
  Forall kept lines ->
  remaining (fold_left (extractStep tomorrow) lines st)
  = remaining st ++ lines
  /\ doneTasks (fold_left (extractStep tomorrow) lines st) = doneTasks st.
Proof.
  intros H. revert st. induction H as [|l ls Hl _ IH]; intros st; simpl.
  - by rewrite app_nil_r.
  - destruct (IH (extractStep tomorrow st l)) as [-> ->].
    destruct (extractStep_kept st l Hl) as [-> ->].
    by rewrite <- app_assoc.
Qed.

(** The rewritten line of a recurring task is not a checked task. *)
Lemma uncheckedLine_not_checked txt date :
  testChecked (uncheckedLine txt date) = false.
Proof. reflexivity. Qed.

Lemma extractStep_remaining_kept st line :
  Forall kept (remaining st) ->
  Forall kept (remaining (extractStep tomorrow st line)).
Proof.
  intros H. destruct (testChecked line) eqn:Et.
  - rewrite extractStep_checked by done.
    destruct (inRepeatSection st); [|done]. simpl.
    apply Forall_app. split; [done|].
    constructor; [|constructor].
    right. apply uncheckedLine_not_checked.
  - destruct (extractStep_kept st line) as [-> _]; [by right|].
    apply Forall_app. split; [done|].
    constructor; [by right|constructor].
Qed.

Lemma extract_remaining_kept lines st :
  Forall kept (remaining st) ->
  Forall kept (remaining (fold_left (extractStep tomorrow) lines st)).
Proof.
  revert st. induction lines as [|l ls IH]; intros st H; simpl; [done|].
  apply IH. by apply extractStep_remaining_kept.
Qed.

(** Completed lines are trimmed checked task lines: they start with the
    list marker. *)
Lemma trim_checked_head line :
  testChecked line = true ->
  exists m r, trim line = m :: r /\ is_marker m = true.
Proof.
  unfold testChecked.
  destruct (matchChecked line) as [rest|] eqn:E; [|done]. intros _.
  destruct (matchChecked_marker _ _ E) as (m & r & Hts & Hm).
  exists m, (trimEnd r). split; [|done].
  unfold trim. rewrite Hts.
  apply trimEnd_cons_nonws. by apply marker_not_ws.
Qed.

End Loop.

End ExtractFacts.

Import ExtractFacts.

(** ** The merge loop *)

Module MergeFacts.

Section Loop.

Variable tasks : list jsstring.
Variable dateHeader : jsstring.

Lemma mergeStep_target st h :
  isTarget dateHeader h ->
  mergeStep tasks dateHeader st h =
  {| newContent := newContent st ++ [h];
     inTargetSection := true;
     sectionFound := true |}.
Proof. unfold isTarget, mergeStep. intros H. by case_decide. Qed.

Lemma mergeStep_close st g :
  ~ isTarget dateHeader g -> startsWith g HEADER_MARK = true ->
  inTargetSection st = true ->
  mergeStep tasks dateHeader st g =
  {| newContent := (newContent st ++ tasks) ++ [g];
     inTargetSection := false;
     sectionFound := sectionFound st |}.
Proof.
  unfold isTarget, mergeStep. intros H Hg Hin.
  case_decide; [done|]. by rewrite Hin, Hg.
Qed.

Lemma mergeStep_plain st l :
  ~ isTarget dateHeader l ->
  inTargetSection st = false \/ notMark l ->
  mergeStep tasks dateHeader st l =
  {| newContent := newContent st ++ [l];
     inTargetSection := inTargetSection st;
     sectionFound := sectionFound st |}.
Proof.
  unfold isTarget, notMark, mergeStep. intros H Hq.
  case_decide; [done|].
  destruct Hq as [-> | ->]; [done|]. by rewrite andb_false_r.
Qed.

(** Lines that neither open the target section nor close it go through. *)
Lemma mergeLoop_plain ls st :
  Forall (fun l => ~ isTarget dateHeader l) ls ->
  inTargetSection st = false \/ Forall notMark ls ->
  fold_left (mergeStep tasks dateHeader) ls st =
  {| newContent := newContent st ++ ls;
     inTargetSection := inTargetSection st;
     sectionFound := sectionFound st |}.
Proof.
  intros H. revert st. induction H as [|l ls Hl _ IH]; intros st Hq.
  - cbn [fold_left]. rewrite app_nil_r. by destruct st.
  - cbn [fold_left]. rewrite mergeStep_plain.
    + rewrite IH; cbn [newContent inTargetSection sectionFound].
      * by rewrite <- app_assoc.
      * destruct Hq as [?|Hq]; [by left|]. right. by inv Hq.
    + done.
    + destruct Hq as [?|Hq]; [by left|]. right. by inv Hq.
Qed.

(** The loop only appends: what is emitted before stays, and the lines
    scanned appear among the lines appended, in their order. *)
Lemma mergeLoop_sublist ls st :
  exists out,
    newContent (fold_left (mergeStep tasks dateHeader) ls st)
    = newContent st ++ out
    /\ ls `sublist_of` out.
Proof.
  revert st. induction ls as [|l ls IH]; intros st.
  - exists []. cbn [fold_left]. by rewrite app_nil_r.
  - cbn [fold_left].
    destruct (IH (mergeStep tasks dateHeader st l)) as (out & -> & Hsub).
    unfold mergeStep. case_decide; [|case_match];
      cbn [newContent]; rewrite <- ?app_assoc.
    + exists (l :: out). split; [done|]. by constructor.
    + exists (tasks ++ l :: out). split; [done|].
      apply sublist_inserts_l. by constructor.
    + exists (l :: out). split; [done|]. by constructor.
Qed.

(** The section after the last line that opens it: its body, the tasks, and
    what follows. *)
Lemma mergeLoop_section st h body rest :
  isTarget dateHeader h ->
  Forall (fun l => ~ isTarget dateHeader l) (body ++ rest) ->
  Forall notMark body -> startsSection rest ->
  mergeFinish tasks dateHeader
    (fold_left (mergeStep tasks dateHeader) (h :: body ++ rest) st)
  = newContent st ++ h :: body ++ tasks ++ rest.
Proof.
  intros Hh Hno Hbody Hrest.
  apply Forall_app in Hno as [Hnb Hnr].
  cbn [fold_left]. rewrite mergeStep_target by done.
  rewrite fold_left_app, (mergeLoop_plain body) by auto.
  cbn [newContent inTargetSection sectionFound].
  destruct Hrest as [->|(g & r & -> & Hg)].
  - cbn [fold_left]. unfold mergeFinish.
    cbn [newContent inTargetSection sectionFound andb].
    rewrite <- !app_assoc. cbn [app]. by rewrite app_nil_r.
  - inv Hnr. cbn [fold_left]. rewrite mergeStep_close by done.
    rewrite mergeLoop_plain by auto.
    unfold mergeFinish.
    cbn [newContent inTargetSection sectionFound andb negb].
    by rewrite <- !app_assoc.
Qed.

End Loop.

(** The first element with a decidable property, and what surrounds it. *)
Lemma split_first {A} (P : A -> Prop) `{!forall x, Decision (P x)}
    (l : list A) :
  Exists P l ->
  exists pre x post,
    l = pre ++ x :: post /\ Forall (fun y => ~ P y) pre /\ P x.
Proof.
  induction l as [|a l IH]; intros HE; [by inv HE|].
  destruct (decide (P a)) as [Ha|Ha].
  - exists [], a, l. by repeat split.
  - inv HE; [done|].
    destruct IH as (pre & x & post & -> & Hpre & Hx); [done|].
    exists (a :: pre), x, post. repeat split; [|done]. by constructor.
Qed.

(** The longest prefix of lines that do not start a section. *)
Lemma split_body (l : list jsstring) :
  exists body rest,
    l = body ++ rest /\ Forall notMark body /\ startsSection rest.
Proof.
  induction l as [|a l (body & rest & -> & Hb & Hr)].
  - exists [], []. repeat split; [constructor|by left].
  - destruct (startsWith a HEADER_MARK) eqn:E.
    + exists [], (a :: body ++ rest). repeat split; [constructor|].
      right. eauto.
    + exists (a :: body), rest. repeat split; [by constructor|done].
Qed.

End MergeFacts.

Import MergeFacts.

(** ** The loop of [checkRepeatTaskDates] *)

Module CheckFacts.

Section Loop.

Variable today : jsstring.

Lemma nextSection_not_header b line : ~ isHeader line -> nextSection b line = b.
Proof.
  unfold isHeader, nextSection. intros H.
  repeat case_decide; try tauto.
  destruct (startsWith line HEADER_MARK); tauto.
Qed.

Lemma rewrites_checked b line :
  rewrites today b line = true -> testChecked line = true.
Proof.
  unfold rewrites. intros [[_ H]%andb_true_iff _]%andb_true_iff. exact H.
Qed.

Lemma checkStep_spec st line :
  checkStep today st line =
  {| updatedLines :=
       updatedLines st ++ [checkedOutput today (checkInRepeat st) line];
     checkInRepeat := nextSection (checkInRepeat st) line;
     hasChanges := hasChanges st || rewrites today (checkInRepeat st) line |}.
Proof.
  unfold checkedOutput.
  destruct (rewrites today (checkInRepeat st) line) eqn:Er.
  - pose proof (checked_not_header _ (rewrites_checked _ _ Er)) as Hh.
    rewrite nextSection_not_header by done.
    unfold isHeader in Hh. unfold checkStep.
    repeat case_decide; try tauto.
    destruct (startsWith line HEADER_MARK); [tauto|].
    unfold rewrites in Er. rewrite Er. by rewrite orb_true_r.
  - unfold checkStep, nextSection. rewrite orb_false_r.
    repeat case_decide; try (by destruct st).
    destruct (startsWith line HEADER_MARK); [by destruct st|].
    unfold rewrites in Er. rewrite Er. by destruct st.
Qed.

Lemma checkLoop_rolled lines st :
  fold_left (checkStep today) lines st =
  {| updatedLines := updatedLines st ++ rolled today (checkInRepeat st) lines;
     checkInRepeat := fold_left nextSection lines (checkInRepeat st);
     hasChanges :=
       hasChanges st || anyRewrite today (checkInRepeat st) lines |}.
Proof.
  revert st. induction lines as [|l ls IH]; intros st; cbn [fold_left].
  - cbn [rolled anyRewrite]. rewrite app_nil_r, orb_false_r. by destruct st.
  - rewrite IH, checkStep_spec.
    cbn [updatedLines checkInRepeat hasChanges rolled anyRewrite].
    by rewrite <- app_assoc, orb_assoc.
Qed.

Lemma rolled_length b lines : length (rolled today b lines) = length lines.
Proof.
  revert b. induction lines as [|l ls IH]; intros b; [done|].
  cbn [rolled length]. by rewrite IH.
Qed.

Lemma rolled_app b pre post :
  rolled today b (pre ++ post)
  = rolled today b pre ++ rolled today (fold_left nextSection pre b) post.
Proof.
  revert b. induction pre as [|l ls IH]; intros b; [done|].
  cbn [rolled app fold_left]. by rewrite IH.
Qed.

Lemma anyRewrite_app b pre post :
  anyRewrite today b (pre ++ post)
  = anyRewrite today b pre
    || anyRewrite today (fold_left nextSection pre b) post.
Proof.
  revert b. induction pre as [|l ls IH]; intros b; [done|].
  cbn [anyRewrite app fold_left]. by rewrite IH, orb_assoc.
Qed.

(** The rewritten line is neither a header nor a checked task. *)
Lemma uncheckedLine_not_header txt date : ~ isHeader (uncheckedLine txt date).
Proof.
  assert (E : exists r, uncheckedLine txt date = 45%N :: r).
  { unfold uncheckedLine. eexists. reflexivity. }
  destruct E as [r E]. unfold isHeader. rewrite E.
  assert (Ht : trim (45%N :: r) = 45%N :: trimEnd r).
  { unfold trim. rewrite trimStart_nonws by reflexivity.
    by apply trimEnd_cons_nonws. }
  rewrite Ht. intros [H|[H|H]]; [| |done].
  - change REPEAT_HEADER with (35%N :: tl REPEAT_HEADER) in H. congruence.
  - change GENERAL_HEADER with (35%N :: tl GENERAL_HEADER) in H. congruence.
Qed.

Lemma checkedOutput_stable b line :
  rewrites today b (checkedOutput today b line) = false
  /\ nextSection b (checkedOutput today b line) = nextSection b line.
Proof.
  unfold checkedOutput. destruct (rewrites today b line) eqn:Er; [|done].
  split.
  - unfold rewrites. rewrite uncheckedLine_not_checked.
    by rewrite andb_false_r.
  - rewrite !nextSection_not_header;
      eauto using uncheckedLine_not_header, checked_not_header,
        rewrites_checked.
Qed.

(** A second run over the emitted lines emits them again and rewrites
    none. *)
Lemma rolled_idempotent b lines :
  rolled today b (rolled today b lines) = rolled today b lines
  /\ anyRewrite today b (rolled today b lines) = false.
Proof.
  revert b. induction lines as [|l ls IH]; intros b; [done|].
  cbn [rolled anyRewrite].
  destruct (checkedOutput_stable b l) as [Hr Hn].
  rewrite Hn, Hr. destruct (IH (nextSection b l)) as [-> ->].
  split; [|done]. f_equal.
  unfold checkedOutput at 1. by rewrite Hr.
Qed.

End Loop.

End CheckFacts.

Import CheckFacts.

(** ** Where the completed lines go *)

Module PlacementFacts.

Lemma render_annotation t :
  render t
  = (indent t ++ marker t :: gap t ++ 91%N :: mark t :: 93%N :: pad t
     ++ text t ++ sep t)
    ++ (lit "(" ++ annotation t ++ lit ")") ++ trailing t.
Proof.
  unfold render. change (lit "(") with [40%N]. change (lit ")") with [41%N].
  repeat (rewrite <- app_assoc; cbn [app]). reflexivity.
Qed.

Lemma includes_render t :
  includes (render t) (lit "(" ++ annotation t ++ lit ")") = true.
Proof. rewrite render_annotation. apply includes_app. Qed.

Lemma split_last {A} (P : A -> Prop) `{!forall x, Decision (P x)}
    (l : list A) :
  Exists P l ->
  exists pre x post,
    l = pre ++ x :: post /\ P x /\ Forall (fun y => ~ P y) post.
Proof.
  intros HE.
  assert (HR : Exists P (rev l)).
  { apply Exists_exists in HE as (x & Hx & HP). apply Exists_exists.
    exists x. split; [|done]. apply list_elem_of_In, in_rev.
    rewrite rev_involutive. by apply list_elem_of_In. }
  destruct (split_first P (rev l) HR) as (pre & x & post & E & Hpre & Hx).
  exists (rev post), x, (rev pre). repeat split; [|done|].
  - rewrite <- (rev_involutive l), E, rev_app_distr. cbn [rev].
    by rewrite <- app_assoc.
  - apply Forall_forall. intros y Hy.
    rewrite Forall_forall in Hpre. apply Hpre.
    apply list_elem_of_In, in_rev. by apply list_elem_of_In.
Qed.

(** A trimmed checked task line does not start with the header mark. *)
Lemma trim_checked_notMark line :
  testChecked line = true -> notMark (trim line).
Proof.
  intros H. destruct (trim_checked_head line H) as (m & r & -> & Hm).
  unfold notMark. change HEADER_MARK with (35%N :: tl HEADER_MARK).
  cbn [startsWith]. destruct (N.eqb_spec 35 m) as [<-|]; [|done].
  vm_compute in Hm. discriminate.
Qed.

Lemma doneTasks_notMark tomorrow lines st :
  Forall notMark (doneTasks st) ->
  Forall notMark (doneTasks (fold_left (extractStep tomorrow) lines st)).
Proof.
  revert st. induction lines as [|l ls IH]; intros st H; [done|].
  cbn [fold_left]. apply IH.
  destruct (testChecked l) eqn:Et.
  - rewrite extractStep_checked by done.
    destruct (inRepeatSection st); cbn [doneTasks];
      apply Forall_app; (split; [done|]);
      constructor; auto using trim_checked_notMark.
  - by destruct (extractStep_kept tomorrow st l (or_intror Et)) as [_ ->].
Qed.

(** The completed lines are trimmed and not empty. *)
Lemma doneTasks_trimmed tomorrow lines st :
  Forall (fun t => t <> [] /\ trim t = t) (doneTasks st) ->
  Forall (fun t => t <> [] /\ trim t = t)
    (doneTasks (fold_left (extractStep tomorrow) lines st)).
Proof.
  revert st. induction lines as [|l ls IH]; intros st H; [done|].
  cbn [fold_left]. apply IH.
  destruct (testChecked l) eqn:Et.
  - assert (Hl : trim l <> [] /\ trim (trim l) = trim l).
    { split; [|apply trim_idem].
      by destruct (trim_checked_head l Et) as (m & r & -> & _). }
    rewrite extractStep_checked by done.
    destruct (inRepeatSection st); cbn [doneTasks];
      apply Forall_app; (split; [done|]);
      (constructor; [exact Hl|constructor]).
  - by destruct (extractStep_kept tomorrow st l (or_intror Et)) as [_ ->].
Qed.

(** Every completed line ends up in a section of the date header. *)
Lemma merge_under_section archive tasks dateHeader t :
  trim dateHeader = dateHeader ->
  Forall notMark tasks -> t ∈ tasks ->
  underSection dateHeader t (mergeLines archive tasks dateHeader).
Proof.
  intros Hh Htasks Ht.
  apply list_elem_of_split in Ht as (T1 & T2 & ->).
  apply Forall_app in Htasks as [HT1 _].
  destruct (Forall_Exists_dec (fun l => ~ isTarget dateHeader l)
              (isTarget dateHeader)
              (fun l => match decide (isTarget dateHeader l) with
                        | left p => right p
                        | right n => left n
                        end) archive) as [Hall|HE].
  - unfold mergeLines. rewrite mergeLoop_plain by (auto; by left).
    unfold mergeFinish, mergeInit.
    cbn [newContent inTargetSection sectionFound andb negb app].
    exists (match archive with [] => archive | _ :: _ => archive ++ [[]] end),
      dateHeader, T1, T2.
    by repeat split.
  - destruct (split_last _ _ HE) as (pre & h & post & -> & Hx & Hpost).
    destruct (split_body post) as (body & rest & -> & Hbody & Hrest).
    unfold mergeLines. rewrite fold_left_app, mergeLoop_section by done.
    exists (newContent (fold_left (mergeStep (T1 ++ t :: T2) dateHeader) pre
                          mergeInit)),
      h, (body ++ T1), (T2 ++ rest).
    repeat split; [|done|by apply Forall_app].
    by rewrite <- !app_assoc.
Qed.

End PlacementFacts.

Import PlacementFacts.

(** ** Lines without line feed *)

Module NewlineFacts.

Local Open Scope N_scope.

Lemma split_nl_nonl l : nonl l -> split_nl l = [l].
Proof.
  unfold nonl. induction l as [|c l IH]; [done|].
  intros H. apply not_elem_of_cons in H as [Hc Hl].
  cbn [split_nl]. destruct (N.eqb_spec c 10) as [->|_]; [done|].
  by rewrite IH.
Qed.

Lemma split_nl_app_nl l s :
  nonl l -> split_nl (l ++ 10 :: s) = l :: split_nl s.
Proof.
  unfold nonl. induction l as [|c l IH]; [done|].
  intros H. apply not_elem_of_cons in H as [Hc Hl].
  cbn [app split_nl]. destruct (N.eqb_spec c 10) as [->|_]; [done|].
  by rewrite IH.
Qed.

(** Splitting the joined lines gives the lines back when none of them has a
    line feed. *)
Lemma split_join ls : ls <> [] -> Forall nonl ls -> split_nl (join_nl ls) = ls.
Proof.
  intros Hne H. induction H as [|l ls Hl Hls IH]; [done|].
  destruct ls as [|l' ls].
  - by apply split_nl_nonl.
  - rewrite join_nl_cons by done. rewrite split_nl_app_nl by done.
    by rewrite IH.
Qed.

Lemma split_nl_lines s : Forall nonl (split_nl s).
Proof.
  induction s as [|c s IH].
  - repeat constructor. unfold nonl. by apply not_elem_of_nil.
  - cbn [split_nl]. destruct (N.eqb_spec c 10) as [->|Hc].
    + constructor; [|done]. unfold nonl. by apply not_elem_of_nil.
    + destruct (split_nl s) as [|l ls].
      * repeat constructor. unfold nonl. rewrite not_elem_of_cons.
        split; [congruence|apply not_elem_of_nil].
      * apply Forall_cons in IH as [Hl Hls].
        constructor; [|done]. unfold nonl in *. rewrite not_elem_of_cons.
        split; [congruence|done].
Qed.

Lemma trim_nonl s : nonl s -> nonl (trim s).
Proof.
  unfold nonl. destruct (trim_decompose s) as (w1 & w2 & _ & _ & E).
  rewrite E at 1. rewrite !elem_of_app. tauto.
Qed.

Lemma trimStart_nonl s : nonl s -> nonl (trimStart s).
Proof.
  unfold nonl. destruct (trimStart_decompose s) as (w & _ & E).
  rewrite E at 1. rewrite !elem_of_app. tauto.
Qed.

Lemma stripAnnot_prefix s : exists r, s = stripAnnot s ++ r.
Proof.
  induction s as [|c s (r & IH)]; [by exists []|].
  cbn [stripAnnot]. destruct ((c =? 40) && annotTail s false).
  - by exists (c :: s).
  - exists r. cbn [app]. by rewrite <- IH.
Qed.

Lemma matchChecked_suffix line rest :
  matchChecked line = Some rest -> exists p, line = p ++ rest.
Proof.
  unfold matchChecked.
  destruct (trimStart_decompose line) as (w & _ & E).
  destruct (trimStart line) as [|m r1]; [done|].
  destruct (is_marker m); [|done].
  destruct (trimStart_decompose r1) as (w' & _ & E').
  destruct r1 as [|c r1']; [done|].
  destruct (is_ws c); [|done].
  destruct (trimStart (c :: r1')) as [|b r2]; [done|].
  destruct (b =? 91); [|done].
  destruct r2 as [|x [|e rest']]; [done..|].
  destruct (is_x x && (e =? 93)); [|done].
  intros [= <-]. exists (w ++ m :: w' ++ [b; x; e]).
  rewrite E, E'. repeat (rewrite <- app_assoc; cbn [app]). reflexivity.
Qed.

Lemma taskText_nonl line : nonl line -> nonl (taskText line).
Proof.
  intros H. unfold taskText. apply trim_nonl.
  assert (Hs : nonl (stripChecked line)).
  { unfold stripChecked.
    destruct (matchChecked line) as [rest|] eqn:E; [|done].
    apply trimStart_nonl. apply matchChecked_suffix in E as [p ->].
    unfold nonl in *. rewrite elem_of_app in H. tauto. }
  destruct (stripAnnot_prefix (stripChecked line)) as [r E].
  unfold nonl in *. rewrite E in Hs. rewrite elem_of_app in Hs. tauto.
Qed.

Lemma includes_inv s p : includes s p = true -> exists a b, s = a ++ p ++ b.
Proof.
  induction s as [|c s IH]; rewrite includes_unfold.
  - rewrite orb_false_r. intros [r ->]%startsWith_inv. by exists [], r.
  - intros [H|H]%orb_true_iff.
    + apply startsWith_inv in H as [r ->]. by exists [], r.
    + destruct (IH H) as (a & b & ->). by exists (c :: a), b.
Qed.

Lemma uncheckedLine_nonl txt date :
  nonl txt -> nonl date -> nonl (uncheckedLine txt date).
Proof.
  intros Ht Hd.
  assert (H1 : nonl (lit "- [ ] "))
    by (apply (proj1 (bool_decide_eq_false _)); reflexivity).
  assert (H2 : nonl (lit " ("))
    by (apply (proj1 (bool_decide_eq_false _)); reflexivity).
  assert (H3 : nonl (lit ")"))
    by (apply (proj1 (bool_decide_eq_false _)); reflexivity).
  unfold uncheckedLine, nonl in *.
  rewrite !elem_of_app. tauto.
Qed.

Lemma checkedOutput_nonl today b line :
  nonl line -> nonl (checkedOutput today b line).
Proof.
  intros H. unfold checkedOutput.
  destruct (rewrites today b line) eqn:Er; [|done].
  unfold rewrites in Er. apply andb_true_iff in Er as [_ Hi].
  apply includes_inv in Hi as (a & z & E).
  apply uncheckedLine_nonl; [by apply taskText_nonl|].
  unfold nonl in *. rewrite E in H.
  rewrite !elem_of_app in H. tauto.
Qed.

Lemma remaining_nonl tomorrow lines st :
  nonl tomorrow -> Forall nonl lines -> Forall nonl (remaining st) ->
  Forall nonl (remaining (fold_left (extractStep tomorrow) lines st)).
Proof.
  intros Htom H. revert st. induction H as [|l ls Hl _ IH]; intros st Hst;
    [done|].
  cbn [fold_left]. apply IH.
  destruct (testChecked l) eqn:Et.
  - rewrite extractStep_checked by done.
    destruct (inRepeatSection st); [|done]. cbn [remaining].
    apply Forall_app. split; [done|].
    constructor; [|constructor].
    apply uncheckedLine_nonl; [by apply taskText_nonl|done].
  - destruct (extractStep_kept tomorrow st l (or_intror Et)) as [-> _].
    apply Forall_app. split; [done|]. by repeat constructor.
Qed.

Lemma rolled_nonl today b lines :
  Forall nonl lines -> Forall nonl (rolled today b lines).
Proof.
  intros H. revert b. induction H as [|l ls Hl _ IH]; intros b; [done|].
  cbn [rolled]. constructor; auto using checkedOutput_nonl.
Qed.

End NewlineFacts.

Import NewlineFacts.

(** ** The two documents of the vault *)

Module VaultFacts.

Lemma appendDoneTasks_other (settings : MinimalTaskSettings) (m : Moment)
    (tasks : list jsstring) (fmt : jsstring) (vault : Vault)
    (file : jsstring) :
  file <> doneFile settings ->
  appendDoneTasks settings m tasks fmt vault !! file = vault !! file.
Proof.
  intros Hne. unfold appendDoneTasks.
  destruct (vault !! doneFile settings) as [c|] eqn:E.
  - rewrite E. by rewrite lookup_insert_ne.
  - rewrite lookup_insert_eq. by rewrite !lookup_insert_ne.
Qed.

(** The kept lines of a run have no completed line left. *)
Lemma extract_kept_again tomorrow lines :
  let K := remaining (extract tomorrow lines) in
  remaining (extract tomorrow K) = K /\ doneTasks (extract tomorrow K) = [].
Proof.
  intros K.
  assert (HK : Forall kept K).
  { apply extract_remaining_kept. constructor. }
  clearbody K. unfold extract.
  by destruct (extract_fold_kept tomorrow K extractInit HK) as [-> ->].
Qed.

(** A second pass over the vault that a pass has left writes nothing. *)
Lemma processTaskFile_twice (settings : MinimalTaskSettings) (m : Moment)
    (file : jsstring) (vault : Vault) :
  file <> doneFile settings ->
  nonl (format_tomorrow m (effectiveDateFormat settings)) ->
  processTaskFile settings m file (processTaskFile settings m file vault)
  = processTaskFile settings m file vault.
Proof.
  intros Hne Hnl. unfold processTaskFile at 2 3.
  destruct (vault !! file) as [content|] eqn:Hv.
  - cbv zeta.
    set (tom := format_tomorrow m (effectiveDateFormat settings)) in *.
    destruct (doneTasks (extract tom (split_nl content))) as [|d ds] eqn:Hd.
    + unfold processTaskFile. rewrite Hv. cbv zeta. fold tom. by rewrite Hd.
    + unfold processTaskFile.
      rewrite appendDoneTasks_other, lookup_insert_eq by done.
      cbv zeta. fold tom.
      set (K := remaining (extract tom (split_nl content))).
      assert (E : doneTasks (extract tom (split_nl (join_nl K))) = []).
      { destruct K as [|k K'] eqn:EK; [reflexivity|].
        rewrite split_join; [|done|].
        - rewrite <- EK. apply extract_kept_again.
        - rewrite <- EK. apply remaining_nonl; [done| |constructor].
          apply split_nl_lines. }
      by rewrite E.
  - unfold processTaskFile. by rewrite Hv.
Qed.

End VaultFacts.

Import VaultFacts.

(** * The claims of the specification *)

(** ** Task Extractor *)

(** C7: extraction is idempotent on the kept lines.  For every task document
    [D], running the extraction on the [remaining] lines of a first run, with
    the same date, gives the same [remaining] lines and no completed line.
    So a second pass of [processTaskFile] over the vault that a first pass
    has left writes nothing, when the archive is another file than the task
    document and the formatted date has no line feed. *)
Theorem extract_idempotent_on_kept (tomorrow : jsstring) (D : list jsstring) :
  let first := extract tomorrow D in
  let second := extract tomorrow (remaining first) in
  remaining second = remaining first
  /\ doneTasks second = []
  /\ (forall (settings : MinimalTaskSettings) (m : Moment) (file : jsstring)
             (vault : Vault),
        file <> doneFile settings ->
        nonl (format_tomorrow m (effectiveDateFormat settings)) ->
        processTaskFile settings m file (processTaskFile settings m file vault)
        = processTaskFile settings m file vault).
Proof.
  intros first second. subst first second.
  destruct (extract_kept_again tomorrow D) as [Hk Hd].
  split; [exact Hk|split; [exact Hd|]].
  intros settings m file vault. apply processTaskFile_twice.
Qed.

(** An instance of C7: the vault of the example, processed twice. *)
Lemma extract_idempotent_witness :
  lit "task.md" <> doneFile DEFAULT_SETTINGS
  /\ nonl (format_tomorrow exampleMoment (effectiveDateFormat DEFAULT_SETTINGS))
  /\ processTaskFile DEFAULT_SETTINGS exampleMoment (lit "task.md")
       (processTaskFile DEFAULT_SETTINGS exampleMoment (lit "task.md")
          {[ lit "task.md" := REPEAT_HEADER ++ 10%N :: drinkWater ]})
     = processTaskFile DEFAULT_SETTINGS exampleMoment (lit "task.md")
         {[ lit "task.md" := REPEAT_HEADER ++ 10%N :: drinkWater ]}.
Proof.
  assert (H1 : lit "task.md" <> doneFile DEFAULT_SETTINGS) by discriminate.
  assert (H2 : nonl (format_tomorrow exampleMoment
                       (effectiveDateFormat DEFAULT_SETTINGS)))
    by (apply (proj1 (bool_decide_eq_false _)); reflexivity).
  split; [exact H1|split; [exact H2|]].
  exact (proj2 (proj2 (extract_idempotent_on_kept (lit "2024-01-03") []))
           DEFAULT_SETTINGS exampleMoment (lit "task.md") _ H1 H2).
Defined.

(** C8: a pass over a task document without any checked task line writes
    nothing: the extraction yields no completed line and the vault after
    [processTaskFile] is the vault before it, so neither document is written
    and no archive file is created. *)
Theorem processTaskFile_noop_without_checked
    (settings : MinimalTaskSettings) (m : Moment) (file content : jsstring)
    (vault : Vault) :
  vault !! file = Some content ->
  Forall (fun line => testChecked line = false) (split_nl content) ->
  doneTasks (extract (format_tomorrow m (effectiveDateFormat settings))
               (split_nl content)) = []
  /\ processTaskFile settings m file vault = vault.
Proof.
  intros Hfile Hlines.
  assert (Hdone :
    doneTasks (extract (format_tomorrow m (effectiveDateFormat settings))
                 (split_nl content)) = []).
  { apply extract_fold_kept. eapply Forall_impl; [exact Hlines|].
    intros line Hl. by right. }
  split; [exact Hdone|].
  unfold processTaskFile. rewrite Hfile. cbv zeta. by rewrite Hdone.
Qed.

(** An instance of C8: a task document with one unchecked task. *)
Lemma processTaskFile_noop_witness :
  ({[ lit "task.md" := uncheckedDocument ]} : Vault) !! lit "task.md"
  = Some uncheckedDocument
  /\ Forall (fun line => testChecked line = false) (split_nl uncheckedDocument)
  /\ processTaskFile DEFAULT_SETTINGS exampleMoment (lit "task.md")
       {[ lit "task.md" := uncheckedDocument ]}
     = {[ lit "task.md" := uncheckedDocument ]}.
Proof.
  assert (H1 : ({[ lit "task.md" := uncheckedDocument ]} : Vault)
               !! lit "task.md" = Some uncheckedDocument) by reflexivity.
  assert (H2 : Forall (fun line => testChecked line = false)
                 (split_nl uncheckedDocument))
    by (vm_compute; repeat constructor).
  split; [exact H1|split; [exact H2|]].
  exact (proj2 (processTaskFile_noop_without_checked DEFAULT_SETTINGS
                  exampleMoment (lit "task.md") uncheckedDocument _ H1 H2)).
Defined.

(** ** Archive Merger *)

(** C2: when no line of the archive is the date header up to trimming, the
    merged lines are the archive lines, a blank separator line if there is
    any archive line, the date header and the completed lines in their
    order; so the result ends with the header followed by the tasks.  For
    the lines of an archive document, the text that is joined is the
    document, a blank line, the header and the tasks; and when the tasks are
    trimmed lines, as the extraction gives them ([doneTasks_trimmed]), the
    text that is written still ends with the header and the tasks: trimming
    takes white space from its start only. *)
Theorem merge_appends_new_section
    (archive tasks : list jsstring) (dateHeader : jsstring) :
  Forall (fun l => ~ isTarget dateHeader l) archive ->
  tasks <> [] ->
  mergeLines archive tasks dateHeader
  = archive ++ match archive with [] => [] | _ :: _ => [[]] end
    ++ dateHeader :: tasks
  /\ (exists front,
         mergeLines archive tasks dateHeader = front ++ dateHeader :: tasks)
  /\ (forall content, archive = split_nl content ->
        join_nl (mergeLines archive tasks dateHeader)
        = content ++ [10; 10]%N ++ dateHeader ++ 10%N :: join_nl tasks)
  /\ (forall content today,
        archive = split_nl content ->
        dateHeader = lit "### " ++ today ->
        Forall (fun t => t <> [] /\ trim t = t) tasks ->
        trim (join_nl (mergeLines archive tasks dateHeader))
        = trimStart (content ++ [10; 10]%N)
          ++ dateHeader ++ 10%N :: join_nl tasks).
Proof.
  intros Hno Hne.
  assert (E : mergeLines archive tasks dateHeader
    = archive ++ match archive with [] => [] | _ :: _ => [[]] end
      ++ dateHeader :: tasks).
  { unfold mergeLines. rewrite mergeLoop_plain by (auto; by left).
    unfold mergeFinish, mergeInit.
    cbn [newContent inTargetSection sectionFound andb negb app].
    destruct archive; [done|]. by rewrite <- app_assoc. }
  assert (J : forall content, archive = split_nl content ->
    join_nl (mergeLines archive tasks dateHeader)
    = content ++ [10; 10]%N ++ dateHeader ++ 10%N :: join_nl tasks).
  { intros content ->. rewrite E.
    pose proof (split_nl_nonempty content) as Hs.
    destruct (split_nl content) as [|l ls] eqn:El; [done|].
    rewrite join_nl_app by done. rewrite <- El, join_split.
    change ([[]] ++ dateHeader :: tasks) with ([] :: dateHeader :: tasks).
    rewrite join_nl_cons by done. rewrite join_nl_cons by done.
    reflexivity. }
  split; [exact E|split; [|split; [exact J|]]].
  - rewrite E.
    exists (archive ++ match archive with [] => [] | _ :: _ => [[]] end).
    by rewrite <- app_assoc.
  - intros content today Ha -> Htasks. rewrite (J content Ha).
    destruct (join_nl_trimEnd tasks Hne Htasks) as [Hj1 Hj2].
    rewrite app_assoc. apply trim_app_core.
    + by destruct (lit "### " ++ today).
    + reflexivity.
    + change ((lit "### " ++ today) ++ 10%N :: join_nl tasks)
        with ((lit "### " ++ today) ++ [10%N] ++ join_nl tasks).
      rewrite app_assoc. by apply trimEnd_app_keep.
Qed.

(** An instance of C2: two tasks merged into an archive that has the section
    of another day. *)
Lemma merge_appends_new_section_witness :
  Forall (fun l => ~ isTarget (lit "### 2024-01-02") l) olderArchive
  /\ [lit "- [x] a"; lit "- [x] b"] <> []
  /\ mergeLines olderArchive [lit "- [x] a"; lit "- [x] b"]
       (lit "### 2024-01-02")
     = [lit "### 2024-01-01"; lit "- [x] old"; [];
        lit "### 2024-01-02"; lit "- [x] a"; lit "- [x] b"].
Proof.
  assert (H1 : Forall (fun l => ~ isTarget (lit "### 2024-01-02") l)
                 olderArchive)
    by (repeat constructor; by vm_compute).
  assert (H2 : [lit "- [x] a"; lit "- [x] b"] <> []) by discriminate.
  split; [exact H1|split; [exact H2|]].
  exact (proj1 (merge_appends_new_section olderArchive
                  [lit "- [x] a"; lit "- [x] b"] (lit "### 2024-01-02")
                  H1 H2)).
Defined.

(** C3: when exactly one line of the archive is the date header up to
    trimming, the archive is that line [h] with the lines [pre] before it,
    the body of its section and the [rest] that begins at the next line
    starting with the header mark, and the merged lines are the same with the
    completed lines between the body and the rest: the lines before the
    section and all the later sections are unchanged and in their order. *)
Theorem merge_appends_to_existing_section
    (archive tasks : list jsstring) (dateHeader : jsstring) :
  length (filter (isTarget dateHeader) archive) = 1 ->
  exists pre h body rest,
    archive = pre ++ h :: body ++ rest
    /\ isTarget dateHeader h
    /\ Forall (fun l => ~ isTarget dateHeader l) (pre ++ body ++ rest)
    /\ Forall notMark body
    /\ startsSection rest
    /\ mergeLines archive tasks dateHeader
       = pre ++ h :: body ++ tasks ++ rest.
Proof.
  intros Hone.
  assert (HE : Exists (isTarget dateHeader) archive).
  { destruct (Forall_Exists_dec (fun l => ~ isTarget dateHeader l)
                (isTarget dateHeader)
                (fun l => match decide (isTarget dateHeader l) with
                          | left p => right p
                          | right n => left n
                          end) archive) as [Hall|]; [|done].
    exfalso. revert Hone. clear -Hall.
    induction Hall as [|x l Hx _ IH]; [done|].
    by rewrite filter_cons_False. }
  destruct (split_first _ _ HE) as (pre & h & post & -> & Hpre & Hh).
  rewrite filter_app, filter_cons_True in Hone by done.
  assert (Hfpre : filter (isTarget dateHeader) pre = []).
  { clear -Hpre. induction Hpre as [|x l Hx _ IH]; [done|].
    by rewrite filter_cons_False. }
  rewrite Hfpre in Hone. cbn [app length] in Hone.
  assert (Hpost : Forall (fun l => ~ isTarget dateHeader l) post).
  { apply Forall_forall. intros x Hx HP.
    destruct (filter (isTarget dateHeader) post) eqn:Ef;
      [|cbn [length] in Hone; lia].
    exact (filter_nil_not_elem_of _ _ _ Ef HP Hx). }
  destruct (split_body post) as (body & rest & -> & Hbody & Hrest).
  exists pre, h, body, rest. repeat split; try done.
  - apply Forall_app. by split.
  - unfold mergeLines. rewrite fold_left_app.
    rewrite (mergeLoop_plain _ _ pre) by (auto; by left).
    by rewrite mergeLoop_section.
Qed.

(** An instance of C3: a task merged into an archive that has the section of
    the day, followed by an older one. *)
Lemma merge_appends_to_existing_section_witness :
  length (filter (isTarget (lit "### 2024-01-02")) todayArchive) = 1
  /\ exists pre h body rest,
       todayArchive = pre ++ h :: body ++ rest
       /\ mergeLines todayArchive [lit "- [x] a"] (lit "### 2024-01-02")
          = pre ++ h :: body ++ [lit "- [x] a"] ++ rest.
Proof.
  assert (H1 : length (filter (isTarget (lit "### 2024-01-02")) todayArchive)
               = 1) by reflexivity.
  split; [exact H1|].
  destruct (merge_appends_to_existing_section todayArchive [lit "- [x] a"]
              (lit "### 2024-01-02") H1)
    as (pre & h & body & rest & E & _ & _ & _ & _ & Hm).
  exists pre, h, body, rest. split; [exact E|exact Hm].
Defined.

(** C4 as stated fails: with the date header twice in the archive, the
    completed line is placed below the second header. *)
Lemma merge_duplicate_header_counterexample :
  mergeLines duplicatedArchive [lit "- [x] c"] (lit "### 2024-01-02")
  = [lit "### 2024-01-02"; lit "- [x] a"; lit "### 2024-01-02";
     lit "- [x] b"; lit "- [x] c"]
  /\ ~ noTaskAfterDuplicate [lit "- [x] c"] (lit "### 2024-01-02")
         (mergeLines duplicatedArchive [lit "- [x] c"] (lit "### 2024-01-02")).
Proof.
  split; [by vm_compute|].
  intros H.
  specialize (H [lit "### 2024-01-02"; lit "- [x] a"] (lit "### 2024-01-02")
                [lit "- [x] b"; lit "- [x] c"]).
  assert (Hin : lit "- [x] c" ∈ [lit "- [x] b"; lit "- [x] c"]) by set_solver.
  refine (Forall_inv (H _ _ _) Hin).
  - by vm_compute.
  - by vm_compute.
  - left. by vm_compute.
Qed.

(** C4, amended: every line that is the date header up to trimming opens the
    target section again.  With [h] the last such line, of an archive that
    has another one before it, the completed lines are placed at the end of
    the section of [h], below every duplicate; the lines before [h] keep
    their order; and when the section of the first occurrence is closed by
    another header line [g], the completed lines are placed before [g] as
    well. *)
Theorem merge_duplicate_headers_last_section
    (tasks : list jsstring) (dateHeader : jsstring)
    (pre : list jsstring) (h : jsstring) (body rest : list jsstring) :
  Exists (isTarget dateHeader) pre ->
  isTarget dateHeader h ->
  Forall (fun l => ~ isTarget dateHeader l) (body ++ rest) ->
  Forall notMark body ->
  startsSection rest ->
  let front :=
    newContent (fold_left (mergeStep tasks dateHeader) pre mergeInit) in
  mergeLines (pre ++ h :: body ++ rest) tasks dateHeader
  = front ++ h :: body ++ tasks ++ rest
  /\ pre `sublist_of` front
  /\ (forall p0 h1 b1 g more,
        pre = p0 ++ h1 :: b1 ++ g :: more ->
        Forall (fun l => ~ isTarget dateHeader l) (p0 ++ b1 ++ [g]) ->
        isTarget dateHeader h1 ->
        Forall notMark b1 ->
        startsWith g HEADER_MARK = true ->
        exists later, front = p0 ++ h1 :: b1 ++ tasks ++ g :: later).
Proof.
  intros _ Hh Hno Hbody Hrest front. subst front. split; [|split].
  - unfold mergeLines. rewrite fold_left_app.
    by rewrite mergeLoop_section.
  - destruct (mergeLoop_sublist tasks dateHeader pre mergeInit)
      as (out & -> & Hsub).
    done.
  - intros p0 h1 b1 g more -> Hq Hh1 Hb1 Hg.
    apply Forall_app in Hq as [Hp0 Hq].
    apply Forall_app in Hq as [Hqb Hqg]. inv Hqg.
    rewrite fold_left_app, (mergeLoop_plain _ _ p0) by (auto; by left).
    cbn [fold_left]. rewrite mergeStep_target by done.
    rewrite fold_left_app, (mergeLoop_plain _ _ b1) by auto.
    cbn [fold_left newContent inTargetSection sectionFound].
    rewrite mergeStep_close by done.
    destruct (mergeLoop_sublist tasks dateHeader more
      {| newContent :=
           ((((newContent mergeInit ++ p0) ++ [h1]) ++ b1) ++ tasks) ++ [g];
         inTargetSection := false;
         sectionFound := true |}) as (out & Hout & _).
    cbn [newContent inTargetSection sectionFound] in *. rewrite Hout.
    exists out. cbn [mergeInit newContent app].
    by rewrite <- !app_assoc.
Qed.

(** An instance of the amended C4: the header of the day twice, with the
    section of another day between the two; the task is placed in both
    sections of the day. *)
Lemma merge_duplicate_headers_witness :
  Exists (isTarget (lit "### 2024-01-02"))
    [lit "### 2024-01-02"; lit "- [x] a"; lit "### 2024-01-01"; lit "- [x] z"]
  /\ mergeLines
       ([lit "### 2024-01-02"; lit "- [x] a"; lit "### 2024-01-01";
         lit "- [x] z"]
        ++ lit "### 2024-01-02" :: [lit "- [x] b"] ++ [])
       [lit "- [x] c"] (lit "### 2024-01-02")
     = [lit "### 2024-01-02"; lit "- [x] a"; lit "- [x] c";
        lit "### 2024-01-01"; lit "- [x] z";
        lit "### 2024-01-02"; lit "- [x] b"; lit "- [x] c"].
Proof.
  assert (H1 : Exists (isTarget (lit "### 2024-01-02"))
                 [lit "### 2024-01-02"; lit "- [x] a"; lit "### 2024-01-01";
                  lit "- [x] z"])
    by (left; reflexivity).
  split; [exact H1|].
  refine (eq_trans (proj1 (merge_duplicate_headers_last_section
            [lit "- [x] c"] (lit "### 2024-01-02")
            [lit "### 2024-01-02"; lit "- [x] a"; lit "### 2024-01-01";
             lit "- [x] z"]
            (lit "### 2024-01-02") [lit "- [x] b"] [] H1 _ _ _ _)) _).
  - reflexivity.
  - repeat constructor; by vm_compute.
  - repeat constructor.
  - by left.
  - reflexivity.
Defined.

(** C5 as stated fails: an archive that begins with blank lines loses them
    when a new section is appended, because the text is trimmed at both
    ends; the written text is not the right trim of the joined lines. *)
Lemma merge_trims_leading_lines_counterexample :
  appendDoneTasks DEFAULT_SETTINGS exampleMoment [lit "- [x] a"]
    (lit "YYYY-MM-DD") {[ lit "task_done.md" := leadingBlankArchive ]}
    !! lit "task_done.md"
  = Some (lit "notes" ++ [10; 10]%N ++ lit "### 2024-01-02" ++ [10]%N
          ++ lit "- [x] a")
  /\ ~ split_nl leadingBlankArchive `sublist_of`
       split_nl (lit "notes" ++ [10; 10]%N ++ lit "### 2024-01-02" ++ [10]%N
                 ++ lit "- [x] a")
  /\ lit "notes" ++ [10; 10]%N ++ lit "### 2024-01-02" ++ [10]%N
       ++ lit "- [x] a"
     <> trimEnd (join_nl (mergeLines (split_nl leadingBlankArchive)
                            [lit "- [x] a"] (lit "### 2024-01-02"))).
Proof.
  split; [by vm_compute|split].
  - intros H. vm_compute in H.
    repeat match goal with
           | H : sublist _ _ |- _ => inversion H; clear H; subst
           end.
  - by vm_compute.
Qed.

(** C5, amended: every line of the archive, inside or outside the target
    section, is in the merged lines, as it was and in its order; what is
    written is the merged lines joined and trimmed at both ends, so that
    white space is removed at the start of the text as well as at its end,
    and nowhere else. *)
Theorem merge_keeps_lines_and_trims_both_ends
    (settings : MinimalTaskSettings) (m : Moment) (tasks : list jsstring)
    (dateFormat : jsstring) (vault : Vault) :
  let dateHeader := lit "### " ++ format_now m dateFormat in
  let old := default [] (vault !! doneFile settings) in
  let merged := mergeLines (split_nl old) tasks dateHeader in
  split_nl old `sublist_of` merged
  /\ appendDoneTasks settings m tasks dateFormat vault
     = <[doneFile settings := trim (join_nl merged)]> vault
  /\ exists w1 w2,
       allws w1 /\ allws w2
       /\ join_nl merged = w1 ++ trim (join_nl merged) ++ w2.
Proof.
  intros dateHeader old merged. split; [|split].
  - subst merged. unfold mergeLines.
    destruct (mergeLoop_sublist tasks dateHeader (split_nl old) mergeInit)
      as (out & Hout & Hsub).
    unfold mergeFinish. rewrite Hout. cbn [mergeInit newContent app].
    repeat case_match; auto using sublist_inserts_r.
  - subst merged old dateHeader. unfold appendDoneTasks.
    destruct (vault !! doneFile settings) as [content|] eqn:E.
    + by rewrite E.
    + rewrite lookup_insert_eq. by rewrite insert_insert_eq.
  - apply trim_decompose.
Qed.

(** ** Repeat-Date Checker *)

(** C6 as stated fails: a checked recurring line that mentions today's date
    inside its text, with another date as its trailing annotation, is
    rewritten and does not pass through unchanged. *)
Lemma check_rewrites_inner_date_counterexample :
  trailingAnnotation reviewLine = lit "(2024-01-05)"
  /\ trailingAnnotation reviewLine <> lit "(2024-01-02)"
  /\ updatedLines
       (rollCompletedToday (lit "2024-01-02") [REPEAT_HEADER; reviewLine])
     = [REPEAT_HEADER; lit "- [ ] Review (2024-01-02) notes (2024-01-02)"]
  /\ updatedLines
       (rollCompletedToday (lit "2024-01-02") [REPEAT_HEADER; reviewLine])
     !! 1 <> Some reviewLine.
Proof. repeat split; by vm_compute. Qed.

(** C6, amended: the line emitted for a line of the task document is the
    unchecked task with the task text and today's date exactly when the
    line is in the recurring section, is a checked task and contains
    [(today)] somewhere; any other line is emitted as it is, and the
    document keeps its number of lines.  A checked task whose trailing
    annotation is [(today)] contains it, and its task text is its text
    field. *)
Theorem check_rewrites_lines_containing_today
    (today : jsstring) (pre post : list jsstring) (line : jsstring) :
  let inRepeat := checkInRepeat (rollCompletedToday today pre) in
  let out := updatedLines (rollCompletedToday today (pre ++ line :: post)) in
  length out = length (pre ++ line :: post)
  /\ out !! length pre
     = Some (if inRepeat && testChecked line
                && includes line (lit "(" ++ today ++ lit ")")
             then lit "- [ ] " ++ taskText line ++ lit " (" ++ today ++ lit ")"
             else line)
  /\ (forall t, wellFormed t = true -> annotation t = today ->
        line = render t ->
        includes line (lit "(" ++ today ++ lit ")") = true
        /\ taskText line = text t).
Proof.
  intros inRepeat out. subst inRepeat out. unfold rollCompletedToday.
  rewrite !checkLoop_rolled. cbn [updatedLines checkInRepeat checkInit app].
  split; [|split].
  - apply rolled_length.
  - rewrite rolled_app. cbn [rolled].
    rewrite <- (rolled_length today false pre) at 1.
    by rewrite list_lookup_middle.
  - intros t Hwf <- ->. split; [apply includes_render|].
    by apply taskText_render.
Qed.

(** An instance of the amended C6: a recurring task checked with today's
    date. *)
Lemma check_rewrites_witness :
  wellFormed todayTask = true
  /\ annotation todayTask = lit "2024-01-02"
  /\ updatedLines
       (rollCompletedToday (lit "2024-01-02")
          ([REPEAT_HEADER] ++ render todayTask :: []))
     !! 1
     = Some (lit "- [ ] Drink water (2024-01-02)")
  /\ taskText (render todayTask) = lit "Drink water".
Proof.
  assert (H1 : wellFormed todayTask = true) by reflexivity.
  assert (H2 : annotation todayTask = lit "2024-01-02") by reflexivity.
  split; [exact H1|split; [exact H2|]].
  destruct (check_rewrites_lines_containing_today (lit "2024-01-02")
              [REPEAT_HEADER] [] (render todayTask)) as (_ & Hl & Hw).
  split; [exact Hl|].
  exact (proj2 (Hw todayTask H1 H2 eq_refl)).
Defined.

(** C9: when a task of the recurring section is checked and has today's date
    as its annotation, the checker reports a change and emits at its place
    the unchecked task with the same text and the same date; a second run
    over the emitted lines reports no change and emits the same lines.  On
    a vault whose task document has these lines, [checkRepeatTaskDates]
    writes the emitted lines, and run again it writes nothing. *)
Theorem check_flips_once
    (today : jsstring) (pre post : list jsstring) (t : CheckedTask) :
  wellFormed t = true ->
  annotation t = today ->
  checkInRepeat (rollCompletedToday today pre) = true ->
  let first := rollCompletedToday today (pre ++ render t :: post) in
  let second := rollCompletedToday today (updatedLines first) in
  hasChanges first = true
  /\ updatedLines first !! length pre
     = Some (lit "- [ ] " ++ text t ++ lit " (" ++ today ++ lit ")")
  /\ hasChanges second = false
  /\ updatedLines second = updatedLines first
  /\ (forall settings m (vault : Vault) content,
        format_now m (effectiveDateFormat settings) = today ->
        vault !! taskFile settings = Some content ->
        split_nl content = pre ++ render t :: post ->
        checkRepeatTaskDates settings m vault
        = <[taskFile settings := join_nl (updatedLines first)]> vault
        /\ checkRepeatTaskDates settings m
             (checkRepeatTaskDates settings m vault)
           = checkRepeatTaskDates settings m vault).
Proof.
  intros Hwf Ha Hin first second. subst first second.
  unfold rollCompletedToday in *. rewrite checkLoop_rolled in Hin.
  cbn [checkInRepeat checkInit] in Hin.
  assert (Hrw : rewrites today true (render t) = true).
  { unfold rewrites. rewrite testChecked_render by done.
    rewrite <- Ha. by rewrite includes_render. }
  rewrite !checkLoop_rolled.
  cbn [updatedLines checkInRepeat hasChanges checkInit app orb].
  destruct (rolled_idempotent today false (pre ++ render t :: post))
    as [Hsame Hnone].
  assert (Hch : anyRewrite today false (pre ++ render t :: post) = true).
  { rewrite anyRewrite_app, Hin. cbn [anyRewrite].
    rewrite Hrw. apply orb_true_r. }
  split; [exact Hch|split; [|split; [exact Hnone|split; [exact Hsame|]]]].
  - rewrite rolled_app, Hin. cbn [rolled].
    rewrite <- (rolled_length today false pre) at 1.
    rewrite list_lookup_middle by done.
    unfold checkedOutput. rewrite Hrw.
    by rewrite taskText_render.
  - intros settings m vault content Hfmt Hv Hsplit.
    assert (Hfirst : checkRepeatTaskDates settings m vault
      = <[taskFile settings :=
            join_nl (rolled today false (pre ++ render t :: post))]> vault).
    { unfold checkRepeatTaskDates, rollCompletedToday.
      rewrite Hv. cbv zeta. rewrite Hfmt, Hsplit, checkLoop_rolled.
      cbn [updatedLines checkInRepeat hasChanges checkInit app orb].
      by rewrite Hch. }
    split; [exact Hfirst|]. rewrite Hfirst.
    unfold checkRepeatTaskDates, rollCompletedToday.
    rewrite lookup_insert_eq. cbv zeta. rewrite Hfmt.
    rewrite split_join.
    + rewrite checkLoop_rolled.
      cbn [updatedLines checkInRepeat hasChanges checkInit app orb].
      by rewrite Hnone.
    + intros E. apply (f_equal length) in E.
      rewrite rolled_length, length_app in E. cbn [length] in E. lia.
    + apply rolled_nonl. rewrite <- Hsplit. apply split_nl_lines.
Qed.

(** An instance of C9: a recurring task checked with today's date, below the
    header of the recurring section. *)
Lemma check_flips_once_witness :
  wellFormed todayTask = true
  /\ annotation todayTask = lit "2024-01-02"
  /\ checkInRepeat (rollCompletedToday (lit "2024-01-02") [REPEAT_HEADER])
     = true
  /\ hasChanges (rollCompletedToday (lit "2024-01-02")
                   ([REPEAT_HEADER] ++ render todayTask :: []))
     = true
  /\ hasChanges
       (rollCompletedToday (lit "2024-01-02")
          (updatedLines
             (rollCompletedToday (lit "2024-01-02")
                ([REPEAT_HEADER] ++ render todayTask :: []))))
     = false.
Proof.
  assert (H1 : wellFormed todayTask = true) by reflexivity.
  assert (H2 : annotation todayTask = lit "2024-01-02") by reflexivity.
  assert (H3 : checkInRepeat
                 (rollCompletedToday (lit "2024-01-02") [REPEAT_HEADER])
               = true) by reflexivity.
  split; [exact H1|split; [exact H2|split; [exact H3|]]].
  destruct (check_flips_once (lit "2024-01-02") [REPEAT_HEADER] [] todayTask
              H1 H2 H3) as (Hc & _ & Hn & _).
  split; [exact Hc|exact Hn].
Defined.

(** * Further properties of the code *)

(** ** The extraction loop of [processTaskFile] *)

Module ExtractMore.

Lemma filter_checked_nil lines :
  List.filter testChecked lines = [] ->
  Forall (fun l => testChecked l = false) lines.
Proof.
  induction lines as [|l ls IH]; [constructor|]. cbn [List.filter].
  destruct (testChecked l) eqn:E; [done|]. intros H. constructor; auto.
Qed.

Lemma kept_unchecked line : kept line -> testChecked line = false.
Proof.
  intros [Hh|Hu]; [|done].
  destruct (testChecked line) eqn:E; [|done].
  by destruct (checked_not_header line E).
Qed.

Lemma doneTasks_fold tomorrow lines st :
  doneTasks (fold_left (extractStep tomorrow) lines st)
  = doneTasks st ++ map trim (List.filter testChecked lines).
Proof.
  revert st. induction lines as [|l ls IH]; intros st; cbn [fold_left].
  - by rewrite app_nil_r.
  - rewrite IH. cbn [List.filter]. destruct (testChecked l) eqn:Et.
    + rewrite extractStep_checked by done.
      destruct (inRepeatSection st); cbn [doneTasks map];
        by rewrite <- app_assoc.
    + by destruct (extractStep_kept tomorrow st l (or_intror Et)) as [_ ->].
Qed.

(** Outside the recurring section and without its header ahead, the loop
    drops the checked lines and keeps the others. *)
Lemma remaining_fold_plain tomorrow lines st :
  inRepeatSection st = false ->
  Forall (fun l => trim l <> REPEAT_HEADER) lines ->
  remaining (fold_left (extractStep tomorrow) lines st)
  = remaining st ++ List.filter (fun l => negb (testChecked l)) lines.
Proof.
  intros Hst H. revert st Hst.
  induction H as [|l ls Hl _ IH]; intros st Hst; cbn [fold_left].
  - by rewrite app_nil_r.
  - assert (Hn : inRepeatSection (extractStep tomorrow st l) = false).
    { unfold extractStep. repeat case_decide; try done.
      by repeat case_match. }
    rewrite IH by done. cbn [List.filter].
    destruct (testChecked l) eqn:Et; cbn [negb].
    + rewrite extractStep_checked by done. by rewrite Hst.
    + destruct (extractStep_kept tomorrow st l (or_intror Et)) as [-> _].
      by rewrite <- app_assoc.
Qed.

(** In the recurring section and without a header ahead, the loop keeps
    every line at its place, the checked ones rewritten. *)
Lemma remaining_fold_recurring tomorrow lines st :
  inRepeatSection st = true ->
  Forall (fun l => ~ isHeader l) lines ->
  remaining (fold_left (extractStep tomorrow) lines st)
  = remaining st ++ map (rewritten tomorrow) lines.
Proof.
  intros Hst H. revert st Hst.
  induction H as [|l ls Hl _ IH]; intros st Hst; cbn [fold_left].
  - by rewrite app_nil_r.
  - assert (Hn : inRepeatSection (extractStep tomorrow st l) = true).
    { unfold isHeader in Hl. unfold extractStep.
      repeat case_decide; try tauto.
      destruct (startsWith l HEADER_MARK); [tauto|].
      by repeat case_match. }
    rewrite IH by done. cbn [map]. unfold rewritten at 2.
    destruct (testChecked l) eqn:Et.
    + rewrite extractStep_checked by done. rewrite Hst.
      cbn [remaining]. by rewrite <- app_assoc.
    + destruct (extractStep_kept tomorrow st l (or_intror Et)) as [-> _].
      by rewrite <- app_assoc.
Qed.

End ExtractMore.

Import ExtractMore.

(** X1: the completed lines of a pass are the checked task lines of the
    document, trimmed, in their order, whatever section they are in. *)
Theorem extract_completes_checked_lines
    (tomorrow : jsstring) (lines : list jsstring) :
  doneTasks (extract tomorrow lines) = map trim (List.filter testChecked lines).
Proof. unfold extract. by rewrite doneTasks_fold. Qed.

(** X2: in a task document without the header of the recurring section, the
    kept lines are the lines that are not checked tasks: every checked task
    is removed and nothing else changes. *)
Theorem extract_plain_document
    (tomorrow : jsstring) (lines : list jsstring) :
  Forall (fun l => trim l <> REPEAT_HEADER) lines ->
  remaining (extract tomorrow lines)
  = List.filter (fun l => negb (testChecked l)) lines.
Proof.
  intros H. unfold extract. by rewrite remaining_fold_plain.
Qed.

(** An instance of X2: a general section with a checked task between two
    open ones. *)
Lemma extract_plain_document_witness :
  Forall (fun l => trim l <> REPEAT_HEADER)
    [GENERAL_HEADER; lit "- [ ] a"; lit "  * [X] b (note)"; lit "- [ ] c"]
  /\ remaining (extract (lit "2024-01-03")
       [GENERAL_HEADER; lit "- [ ] a"; lit "  * [X] b (note)"; lit "- [ ] c"])
     = [GENERAL_HEADER; lit "- [ ] a"; lit "- [ ] c"].
Proof.
  assert (H : Forall (fun l => trim l <> REPEAT_HEADER)
    [GENERAL_HEADER; lit "- [ ] a"; lit "  * [X] b (note)"; lit "- [ ] c"])
    by (repeat constructor; by vm_compute).
  split; [exact H|].
  exact (extract_plain_document (lit "2024-01-03") _ H).
Defined.

(** X3: in a task document that is the header of the recurring section
    followed by lines without any header, no line is removed: the kept lines
    are the header and, at its place, each line, rewritten when it is a
    checked task. *)
Theorem extract_recurring_document
    (tomorrow h : jsstring) (body : list jsstring) :
  trim h = REPEAT_HEADER ->
  Forall (fun l => ~ isHeader l) body ->
  remaining (extract tomorrow (h :: body))
  = h :: map (rewritten tomorrow) body
  /\ length (remaining (extract tomorrow (h :: body))) = length (h :: body).
Proof.
  intros Hh Hb.
  assert (E : remaining (extract tomorrow (h :: body))
              = h :: map (rewritten tomorrow) body).
  { unfold extract. cbn [fold_left].
    assert (E0 : extractStep tomorrow extractInit h
                 = {| remaining := [h]; doneTasks := [];
                      inRepeatSection := true |}).
    { unfold extractStep. by case_decide. }
    rewrite E0. by rewrite remaining_fold_recurring. }
  split; [exact E|]. rewrite E. cbn [length]. by rewrite length_map.
Qed.

(** An instance of X3. *)
Lemma extract_recurring_document_witness :
  trim (lit "  " ++ REPEAT_HEADER) = REPEAT_HEADER
  /\ Forall (fun l => ~ isHeader l) [lit "- [ ] a"; lit "- [x] b (2024-01-01)"]
  /\ remaining (extract (lit "2024-01-03")
       ((lit "  " ++ REPEAT_HEADER)
        :: [lit "- [ ] a"; lit "- [x] b (2024-01-01)"]))
     = [lit "  " ++ REPEAT_HEADER; lit "- [ ] a"; lit "- [ ] b (2024-01-03)"].
Proof.
  assert (H1 : trim (lit "  " ++ REPEAT_HEADER) = REPEAT_HEADER)
    by reflexivity.
  assert (H2 : Forall (fun l => ~ isHeader l)
                 [lit "- [ ] a"; lit "- [x] b (2024-01-01)"]).
  { repeat constructor; intros [H|[H|H]]; by vm_compute in H. }
  split; [exact H1|split; [exact H2|]].
  exact (proj1 (extract_recurring_document (lit "2024-01-03") _ _ H1 H2)).
Defined.

(** ** One pass over the vault *)

Module PassFacts.

Lemma appendDoneTasks_keeps (settings : MinimalTaskSettings) (m : Moment)
    (tasks : list jsstring) (fmt : jsstring) (vault : Vault) (p : jsstring) :
  is_Some (vault !! p) ->
  is_Some (appendDoneTasks settings m tasks fmt vault !! p).
Proof.
  intros Hp. unfold appendDoneTasks.
  destruct (vault !! doneFile settings) as [c|] eqn:E.
  - rewrite E. destruct (decide (p = doneFile settings)) as [->|Hne].
    + rewrite lookup_insert_eq. eauto.
    + by rewrite lookup_insert_ne.
  - rewrite lookup_insert_eq.
    destruct (decide (p = doneFile settings)) as [->|Hne].
    + rewrite lookup_insert_eq. eauto.
    + by rewrite !lookup_insert_ne.
Qed.

Lemma appendDoneTasks_creates (settings : MinimalTaskSettings) (m : Moment)
    (tasks : list jsstring) (fmt : jsstring) (vault : Vault) :
  is_Some (appendDoneTasks settings m tasks fmt vault !! doneFile settings).
Proof.
  unfold appendDoneTasks.
  destruct (vault !! doneFile settings) as [c|] eqn:E.
  - rewrite E, lookup_insert_eq. eauto.
  - rewrite !lookup_insert_eq. eauto.
Qed.

Lemma mergeLines_no_target lines tasks dateHeader :
  Forall (fun l => ~ isTarget dateHeader l) lines ->
  mergeLines lines tasks dateHeader
  = lines ++ match lines with [] => [] | _ :: _ => [[]] end
    ++ dateHeader :: tasks.
Proof.
  intros H. unfold mergeLines. rewrite mergeLoop_plain by (auto; by left).
  unfold mergeFinish, mergeInit.
  cbn [newContent inTargetSection sectionFound andb negb app].
  destruct lines; [done|]. by rewrite <- app_assoc.
Qed.

Lemma join_merge_new content tasks dateHeader :
  tasks <> [] ->
  Forall (fun l => ~ isTarget dateHeader l) (split_nl content) ->
  join_nl (mergeLines (split_nl content) tasks dateHeader)
  = content ++ [10; 10]%N ++ dateHeader ++ 10%N :: join_nl tasks.
Proof.
  intros Hne H. rewrite mergeLines_no_target by done.
  pose proof (split_nl_nonempty content) as Hs.
  destruct (split_nl content) as [|l ls] eqn:El; [done|].
  rewrite join_nl_app by done. rewrite <- El, join_split.
  change ([[]] ++ dateHeader :: tasks) with ([] :: dateHeader :: tasks).
  rewrite join_nl_cons by done. by rewrite join_nl_cons by done.
Qed.

Lemma split_nl_elem s l c : l ∈ split_nl s -> c ∈ l -> c ∈ s.
Proof.
  revert l. induction s as [|d s IH]; intros l; cbn [split_nl].
  - intros ->%list_elem_of_singleton. by intros ?%not_elem_of_nil.
  - destruct (N.eqb_spec d 10) as [->|Hd].
    + intros [->|Hl]%elem_of_cons Hc; [by apply not_elem_of_nil in Hc|].
      right. eauto.
    + destruct (split_nl s) as [|l' ls] eqn:E.
      * intros ->%list_elem_of_singleton Hc.
        apply list_elem_of_singleton in Hc as ->. left.
      * intros [->|Hl]%elem_of_cons Hc.
        -- apply elem_of_cons in Hc as [->|Hc]; [left|].
           right. apply (IH l'); [left|done].
        -- right. apply (IH l); [by right|done].
Qed.

Lemma allws_forall s : allws s <-> forall c, c ∈ s -> is_ws c = true.
Proof.
  unfold allws. rewrite forallb_forall. split.
  - intros H c Hc. apply H. by apply list_elem_of_In.
  - intros H c Hc. apply H. by apply list_elem_of_In.
Qed.

Lemma split_nl_allws s : allws s -> Forall allws (split_nl s).
Proof.
  intros H. apply Forall_forall. intros l Hl.
  apply allws_forall. intros c Hc.
  apply (proj1 (allws_forall s) H). by apply (split_nl_elem s l).
Qed.

End PassFacts.

Import PassFacts.

(** X4: after a pass the task document has no checked task line left, when
    the archive is another file and the formatted date has no line feed. *)
Theorem processTaskFile_leaves_no_checked
    (settings : MinimalTaskSettings) (m : Moment) (file content : jsstring)
    (vault : Vault) :
  file <> doneFile settings ->
  nonl (format_tomorrow m (effectiveDateFormat settings)) ->
  vault !! file = Some content ->
  exists content',
    processTaskFile settings m file vault !! file = Some content'
    /\ Forall (fun l => testChecked l = false) (split_nl content').
Proof.
  intros Hne Hnl Hv. unfold processTaskFile. rewrite Hv. cbv zeta.
  set (tom := format_tomorrow m (effectiveDateFormat settings)) in *.
  destruct (doneTasks (extract tom (split_nl content))) as [|d ds] eqn:Hd.
  - exists content. split; [done|]. apply filter_checked_nil.
    unfold extract in Hd. rewrite doneTasks_fold in Hd.
    by apply map_eq_nil in Hd.
  - rewrite appendDoneTasks_other, lookup_insert_eq by done.
    exists (join_nl (remaining (extract tom (split_nl content)))).
    split; [done|].
    assert (HK : Forall kept (remaining (extract tom (split_nl content)))).
    { apply extract_remaining_kept. constructor. }
    assert (HN : Forall nonl (remaining (extract tom (split_nl content)))).
    { apply remaining_nonl; [done|apply split_nl_lines|constructor]. }
    destruct (remaining (extract tom (split_nl content))) as [|k K] eqn:EK.
    + by repeat constructor.
    + rewrite split_join by done.
      eapply Forall_impl; [exact HK|]. apply kept_unchecked.
Qed.

(** An instance of X4: the document of the example followed by a general
    section with a checked task. *)
Lemma processTaskFile_leaves_no_checked_witness :
  lit "task.md" <> doneFile DEFAULT_SETTINGS
  /\ nonl (format_tomorrow exampleMoment (effectiveDateFormat DEFAULT_SETTINGS))
  /\ ({[ lit "task.md" := mixedDocument ]} : Vault) !! lit "task.md"
     = Some mixedDocument
  /\ exists content',
       processTaskFile DEFAULT_SETTINGS exampleMoment (lit "task.md")
         {[ lit "task.md" := mixedDocument ]} !! lit "task.md"
       = Some content'
       /\ Forall (fun l => testChecked l = false) (split_nl content').
Proof.
  assert (H1 : lit "task.md" <> doneFile DEFAULT_SETTINGS) by discriminate.
  assert (H2 : nonl (format_tomorrow exampleMoment
                       (effectiveDateFormat DEFAULT_SETTINGS)))
    by (apply (proj1 (bool_decide_eq_false _)); reflexivity).
  assert (H3 : ({[ lit "task.md" := mixedDocument ]} : Vault) !! lit "task.md"
               = Some mixedDocument) by reflexivity.
  split; [exact H1|split; [exact H2|split; [exact H3|]]].
  exact (processTaskFile_leaves_no_checked DEFAULT_SETTINGS exampleMoment
           (lit "task.md") mixedDocument _ H1 H2 H3).
Defined.

(** X5: a pass reads and writes the task document and the archive only:
    any other file of the vault has the same content afterwards, and no file
    of the vault disappears. *)
Theorem processTaskFile_frame
    (settings : MinimalTaskSettings) (m : Moment) (file : jsstring)
    (vault : Vault) (p : jsstring) :
  (p <> file -> p <> doneFile settings ->
   processTaskFile settings m file vault !! p = vault !! p)
  /\ (is_Some (vault !! p) ->
      is_Some (processTaskFile settings m file vault !! p)).
Proof.
  unfold processTaskFile.
  destruct (vault !! file) as [content|] eqn:Hv; [|done]. cbv zeta.
  destruct (doneTasks _) as [|d ds]; [done|]. split.
  - intros H1 H2. rewrite appendDoneTasks_other by done.
    by rewrite lookup_insert_ne.
  - intros Hp. apply appendDoneTasks_keeps.
    destruct (decide (p = file)) as [->|Hne].
    + rewrite lookup_insert_eq. eauto.
    + by rewrite lookup_insert_ne.
Qed.

(** An instance of X5: a note beside the task document. *)
Lemma processTaskFile_frame_witness :
  lit "note.md" <> lit "task.md"
  /\ lit "note.md" <> doneFile DEFAULT_SETTINGS
  /\ processTaskFile DEFAULT_SETTINGS exampleMoment (lit "task.md")
       (<[ lit "note.md" := lit "- [x] not a task list" ]>
          {[ lit "task.md" := mixedDocument ]})
     !! lit "note.md"
     = Some (lit "- [x] not a task list").
Proof.
  assert (H1 : lit "note.md" <> lit "task.md") by discriminate.
  assert (H2 : lit "note.md" <> doneFile DEFAULT_SETTINGS) by discriminate.
  split; [exact H1|split; [exact H2|]].
  exact (proj1 (processTaskFile_frame DEFAULT_SETTINGS exampleMoment
                  (lit "task.md")
                  (<[ lit "note.md" := lit "- [x] not a task list" ]>
                     {[ lit "task.md" := mixedDocument ]})
                  (lit "note.md")) H1 H2).
Defined.

(** X6: when the archive file is missing, empty or made of white space only,
    [appendDoneTasks] leaves an archive that is exactly the header of the day
    and the completed lines, one per line; the tasks are trimmed lines, as a
    pass gives them. *)
Theorem appendDoneTasks_blank_archive
    (settings : MinimalTaskSettings) (m : Moment) (tasks : list jsstring)
    (fmt : jsstring) (vault : Vault) :
  match vault !! doneFile settings with
  | Some content => allws content
  | None => True
  end ->
  tasks <> [] ->
  Forall (fun t => t <> [] /\ trim t = t) tasks ->
  appendDoneTasks settings m tasks fmt vault
  = <[doneFile settings :=
        (lit "### " ++ format_now m fmt) ++ 10%N :: join_nl tasks]> vault.
Proof.
  intros Hblank Hne Htasks.
  assert (Hcore : forall content, allws content ->
    trim (join_nl (mergeLines (split_nl content) tasks
                     (lit "### " ++ format_now m fmt)))
    = (lit "### " ++ format_now m fmt) ++ 10%N :: join_nl tasks).
  { intros content Hc. rewrite join_merge_new; [|done|].
    - destruct (join_nl_trimEnd tasks Hne Htasks) as [Hj1 Hj2].
      rewrite app_assoc, trim_app_core.
      + rewrite trimStart_allws; [done|].
        apply allws_app. split; [done|reflexivity].
      + by destruct (lit "### " ++ format_now m fmt).
      + reflexivity.
      + change ((lit "### " ++ format_now m fmt) ++ 10%N :: join_nl tasks)
          with ((lit "### " ++ format_now m fmt) ++ [10%N] ++ join_nl tasks).
        rewrite app_assoc. by apply trimEnd_app_keep.
    - eapply Forall_impl; [exact (split_nl_allws content Hc)|].
      intros l Hl. unfold isTarget. by rewrite trim_allws. }
  unfold appendDoneTasks.
  destruct (vault !! doneFile settings) as [content|] eqn:E.
  - rewrite E. by rewrite Hcore.
  - rewrite lookup_insert_eq, insert_insert_eq. by rewrite Hcore.
Qed.

(** An instance of X6: a vault without archive. *)
Lemma appendDoneTasks_blank_archive_witness :
  match (∅ : Vault) !! doneFile DEFAULT_SETTINGS with
  | Some content => allws content
  | None => True
  end
  /\ [drinkWater; lit "- [x] Call mom"] <> []
  /\ Forall (fun t => t <> [] /\ trim t = t) [drinkWater; lit "- [x] Call mom"]
  /\ appendDoneTasks DEFAULT_SETTINGS exampleMoment
       [drinkWater; lit "- [x] Call mom"] (lit "YYYY-MM-DD") ∅
     = {[ lit "task_done.md" :=
            lit "### 2024-01-02" ++ 10%N :: drinkWater
            ++ 10%N :: lit "- [x] Call mom" ]}.
Proof.
  assert (H1 : match (∅ : Vault) !! doneFile DEFAULT_SETTINGS with
               | Some content => allws content
               | None => True
               end) by exact I.
  assert (H2 : [drinkWater; lit "- [x] Call mom"] <> []) by discriminate.
  assert (H3 : Forall (fun t => t <> [] /\ trim t = t)
                 [drinkWater; lit "- [x] Call mom"])
    by (repeat constructor; discriminate).
  split; [exact H1|split; [exact H2|split; [exact H3|]]].
  exact (appendDoneTasks_blank_archive DEFAULT_SETTINGS exampleMoment _
           (lit "YYYY-MM-DD") ∅ H1 H2 H3).
Defined.

(** X16: the handler of the [modify] event runs a pass for the task file
    only, and once a pass has run, the handler changes nothing more for any
    file: the notifications raised by the writes of a pass do not start a
    second rewrite. *)
Theorem onModify_settles
    (settings : MinimalTaskSettings) (m : Moment) (vault : Vault)
    (p : jsstring) :
  taskFile settings <> doneFile settings ->
  nonl (format_tomorrow m (effectiveDateFormat settings)) ->
  (p <> taskFile settings -> onModify settings m p vault = vault)
  /\ onModify settings m p (onModify settings m (taskFile settings) vault)
     = onModify settings m (taskFile settings) vault.
Proof.
  intros Hne Hnl. unfold onModify. split.
  - intros Hp. by case_decide.
  - destruct (decide (taskFile settings = taskFile settings)); [|done].
    case_decide as Hp; [|done]. rewrite Hp.
    by apply processTaskFile_twice.
Qed.

(** An instance of X16: the notification for the archive after a pass. *)
Lemma onModify_settles_witness :
  taskFile DEFAULT_SETTINGS <> doneFile DEFAULT_SETTINGS
  /\ nonl (format_tomorrow exampleMoment (effectiveDateFormat DEFAULT_SETTINGS))
  /\ onModify DEFAULT_SETTINGS exampleMoment (lit "task.md")
       (onModify DEFAULT_SETTINGS exampleMoment (taskFile DEFAULT_SETTINGS)
          {[ lit "task.md" := mixedDocument ]})
     = onModify DEFAULT_SETTINGS exampleMoment (taskFile DEFAULT_SETTINGS)
         {[ lit "task.md" := mixedDocument ]}.
Proof.
  assert (H1 : taskFile DEFAULT_SETTINGS <> doneFile DEFAULT_SETTINGS)
    by discriminate.
  assert (H2 : nonl (format_tomorrow exampleMoment
                       (effectiveDateFormat DEFAULT_SETTINGS)))
    by (apply (proj1 (bool_decide_eq_false _)); reflexivity).
  split; [exact H1|split; [exact H2|]].
  exact (proj2 (onModify_settles DEFAULT_SETTINGS exampleMoment
                  {[ lit "task.md" := mixedDocument ]} (lit "task.md")
                  H1 H2)).
Defined.

(** ** The merge loop of [appendDoneTasks], by recursion on the archive *)

Module MergeMore.

Section Out.

Variable tasks : list jsstring.
Variable dateHeader : jsstring.

(** Once the target section has been found, what the loop and the final test
    emit is [mergeOut]. *)
Lemma mergeFinish_found lines st :
  sectionFound st = true ->
  mergeFinish tasks dateHeader
    (fold_left (mergeStep tasks dateHeader) lines st)
  = newContent st ++ mergeOut tasks dateHeader (inTargetSection st) lines.
Proof.
  revert st. induction lines as [|l ls IH]; intros st Hf.
  - cbn [fold_left mergeOut]. unfold mergeFinish. rewrite Hf.
    destruct (inTargetSection st); cbn [andb negb]; by rewrite ?app_nil_r.
  - cbn [fold_left mergeOut].
    destruct (decide (trim l = dateHeader)) as [Hl|Hl].
    + rewrite mergeStep_target by done. rewrite IH by done.
      cbn [newContent inTargetSection]. by rewrite <- app_assoc.
    + destruct (inTargetSection st && startsWith l HEADER_MARK) eqn:E.
      * apply andb_true_iff in E as [Hi Hm].
        rewrite mergeStep_close by done. rewrite IH by done.
        cbn [newContent inTargetSection]. by rewrite <- !app_assoc.
      * rewrite mergeStep_plain; [|done|].
        -- rewrite IH by done. cbn [newContent inTargetSection].
           by rewrite <- app_assoc.
        -- apply andb_false_iff in E as [E|E]; [by left|by right].
Qed.

Lemma mergeOut_plain b q rest :
  Forall (fun l => ~ isTarget dateHeader l) q ->
  b = false \/ Forall notMark q ->
  mergeOut tasks dateHeader b (q ++ rest)
  = q ++ mergeOut tasks dateHeader b rest.
Proof.
  intros H. induction H as [|l q Hl _ IH]; intros Hq; [done|].
  cbn [app mergeOut]. unfold isTarget in Hl. case_decide; [done|].
  assert (E : b && startsWith l HEADER_MARK = false).
  { destruct Hq as [->|Hq]; [done|].
    apply Forall_cons in Hq as [Hm _]. unfold notMark in Hm.
    rewrite Hm. apply andb_false_r. }
  rewrite E, IH; [done|].
  destruct Hq as [?|Hq]; [by left|]. right. by inv Hq.
Qed.

Lemma mergeLines_found lines :
  Exists (isTarget dateHeader) lines ->
  mergeLines lines tasks dateHeader = mergeOut tasks dateHeader false lines.
Proof.
  intros HE.
  destruct (split_first _ _ HE) as (pre & x & post & -> & Hpre & Hx).
  unfold mergeLines. rewrite fold_left_app.
  rewrite (mergeLoop_plain _ _ pre) by (auto; by left).
  cbn [fold_left]. rewrite mergeStep_target by done.
  rewrite mergeFinish_found by done.
  cbn [newContent inTargetSection mergeInit app].
  rewrite mergeOut_plain by (auto; by left).
  cbn [mergeOut]. unfold isTarget in Hx. case_decide; [|done].
  by rewrite <- app_assoc.
Qed.

(** The lines that open the target section are those of the archive: the
    merge adds none when the tasks are not such lines. *)
Lemma mergeOut_targets b lines :
  Forall (fun l => ~ isTarget dateHeader l) tasks ->
  filter (isTarget dateHeader) (mergeOut tasks dateHeader b lines)
  = filter (isTarget dateHeader) lines.
Proof.
  intros Ht.
  assert (Hnil : filter (isTarget dateHeader) tasks = []).
  { clear -Ht. induction Ht as [|x l Hx _ IH]; [done|].
    by rewrite filter_cons_False. }
  revert b. induction lines as [|l ls IH]; intros b; cbn [mergeOut].
  - by destruct b.
  - case_decide as Hl.
    + rewrite !filter_cons_True by done. by rewrite IH.
    + destruct (b && startsWith l HEADER_MARK).
      * rewrite filter_app, Hnil. cbn [app].
        rewrite !filter_cons_False by done. apply IH.
      * rewrite !filter_cons_False by done. apply IH.
Qed.

End Out.

(** Merging a second batch after a first one is merging the two batches at
    once, section by section. *)
Lemma mergeOut_twice t1 t2 dateHeader b lines :
  Forall (fun l => ~ isTarget dateHeader l) t1 ->
  Forall notMark t1 ->
  mergeOut t2 dateHeader b (mergeOut t1 dateHeader b lines)
  = mergeOut (t1 ++ t2) dateHeader b lines.
Proof.
  intros H1 H2. revert b.
  induction lines as [|l ls IH]; intros b; cbn [mergeOut].
  - destruct b; [|done].
    rewrite <- (app_nil_r t1) at 1.
    rewrite mergeOut_plain by auto. done.
  - case_decide as Hl.
    + cbn [mergeOut]. case_decide; [|done]. by rewrite IH.
    + destruct (b && startsWith l HEADER_MARK) eqn:E.
      * apply andb_true_iff in E as [-> Hm].
        rewrite mergeOut_plain by auto. cbn [mergeOut].
        case_decide; [done|]. rewrite Hm. cbn [andb].
        rewrite IH. by rewrite <- app_assoc.
      * cbn [mergeOut]. case_decide; [done|]. rewrite E. by rewrite IH.
Qed.

End MergeMore.

Import MergeMore.

(** X7: two merges under the same header compose: merging the tasks of a
    first pass and then those of a second pass gives the archive that
    merging all of them at once gives, the later tasks below the earlier
    ones in every section of the day.  The header is a trimmed line that is
    not empty, and the first tasks are neither headers of the day nor lines
    starting with the header mark, as completed lines are. *)
Theorem mergeLines_compose
    (archive t1 t2 : list jsstring) (dateHeader : jsstring) :
  trim dateHeader = dateHeader ->
  dateHeader <> [] ->
  Forall (fun l => ~ isTarget dateHeader l) t1 ->
  Forall notMark t1 ->
  mergeLines (mergeLines archive t1 dateHeader) t2 dateHeader
  = mergeLines archive (t1 ++ t2) dateHeader.
Proof.
  intros Hh Hne H1 H2.
  destruct (Forall_Exists_dec (fun l => ~ isTarget dateHeader l)
              (isTarget dateHeader)
              (fun l => match decide (isTarget dateHeader l) with
                        | left p => right p
                        | right n => left n
                        end) archive) as [Hall|HE].
  - rewrite (mergeLines_no_target archive t1) by done.
    rewrite (mergeLines_no_target archive (t1 ++ t2)) by done.
    rewrite mergeLines_found.
    + rewrite app_assoc.
      rewrite mergeOut_plain; [|apply Forall_app; split; [done|]|by left].
      * cbn [mergeOut]. case_decide; [|done].
        rewrite <- (app_nil_r t1) at 1.
        rewrite mergeOut_plain by auto. cbn [mergeOut].
        by rewrite <- app_assoc.
      * destruct archive; repeat constructor.
        unfold isTarget. change (trim []) with (@nil N). congruence.
    + apply Exists_app. right. apply Exists_app. right. by left.
  - rewrite (mergeLines_found t1) by done.
    rewrite (mergeLines_found (t1 ++ t2)) by done.
    rewrite mergeLines_found.
    + by apply mergeOut_twice.
    + apply Exists_exists in HE as (x & Hx & HP).
      apply Exists_exists. exists x. split; [|done].
      assert (Hf : x ∈ filter (isTarget dateHeader) archive)
        by (apply list_elem_of_filter; by split).
      rewrite <- (mergeOut_targets t1 dateHeader false archive H1) in Hf.
      by apply list_elem_of_filter in Hf as [_ Hf].
Qed.

(** An instance of X7: two passes of the same day over an archive with an
    older section. *)
Lemma mergeLines_compose_witness :
  trim (lit "### 2024-01-02") = lit "### 2024-01-02"
  /\ lit "### 2024-01-02" <> []
  /\ Forall (fun l => ~ isTarget (lit "### 2024-01-02") l) [lit "- [x] a"]
  /\ Forall notMark [lit "- [x] a"]
  /\ mergeLines (mergeLines olderArchive [lit "- [x] a"] (lit "### 2024-01-02"))
       [lit "- [x] b"] (lit "### 2024-01-02")
     = [lit "### 2024-01-01"; lit "- [x] old"; [];
        lit "### 2024-01-02"; lit "- [x] a"; lit "- [x] b"].
Proof.
  assert (H1 : trim (lit "### 2024-01-02") = lit "### 2024-01-02")
    by reflexivity.
  assert (H2 : lit "### 2024-01-02" <> []) by discriminate.
  assert (H3 : Forall (fun l => ~ isTarget (lit "### 2024-01-02") l)
                 [lit "- [x] a"])
    by (repeat constructor; by vm_compute).
  assert (H4 : Forall notMark [lit "- [x] a"])
    by (repeat constructor).
  split; [exact H1|split; [exact H2|split; [exact H3|split; [exact H4|]]]].
  exact (eq_trans (mergeLines_compose olderArchive [lit "- [x] a"]
                     [lit "- [x] b"] (lit "### 2024-01-02") H1 H2 H3 H4)
           eq_refl).
Defined.

(** X8: the merge never creates a second header of the day: when the archive
    has lines that are the header up to trimming, the merged lines have the
    same ones and no other; when it has none, they have exactly one, the
    header itself. *)
Theorem mergeLines_header_once
    (archive tasks : list jsstring) (dateHeader : jsstring) :
  trim dateHeader = dateHeader ->
  dateHeader <> [] ->
  Forall (fun l => ~ isTarget dateHeader l) tasks ->
  filter (isTarget dateHeader) (mergeLines archive tasks dateHeader)
  = match filter (isTarget dateHeader) archive with
    | [] => [dateHeader]
    | h :: hs => h :: hs
    end.
Proof.
  intros Hh Hne Ht.
  assert (Hnil : forall ls, Forall (fun l => ~ isTarget dateHeader l) ls ->
                   filter (isTarget dateHeader) ls = []).
  { intros ls H. induction H as [|x l Hx _ IH]; [done|].
    by rewrite filter_cons_False. }
  destruct (Forall_Exists_dec (fun l => ~ isTarget dateHeader l)
              (isTarget dateHeader)
              (fun l => match decide (isTarget dateHeader l) with
                        | left p => right p
                        | right n => left n
                        end) archive) as [Hall|HE].
  - rewrite mergeLines_no_target by done.
    rewrite (Hnil archive Hall), !filter_app, (Hnil archive Hall).
    rewrite filter_cons_True by done. rewrite (Hnil tasks Ht).
    rewrite (Hnil (match archive with [] => [] | _ :: _ => [[]] end)); [done|].
    destruct archive; repeat constructor.
    unfold isTarget. change (trim []) with (@nil N). congruence.
  - rewrite mergeLines_found by done. rewrite mergeOut_targets by done.
    destruct (filter (isTarget dateHeader) archive) eqn:E; [|done].
    exfalso. apply Exists_exists in HE as (x & Hx & HP).
    exact (filter_nil_not_elem_of _ _ _ E HP Hx).
Qed.

(** An instance of X8: an archive that has the section of the day. *)
Lemma mergeLines_header_once_witness :
  trim (lit "### 2024-01-02") = lit "### 2024-01-02"
  /\ lit "### 2024-01-02" <> []
  /\ Forall (fun l => ~ isTarget (lit "### 2024-01-02") l) [lit "- [x] a"]
  /\ filter (isTarget (lit "### 2024-01-02"))
       (mergeLines todayArchive [lit "- [x] a"] (lit "### 2024-01-02"))
     = [lit "### 2024-01-02"].
Proof.
  assert (H1 : trim (lit "### 2024-01-02") = lit "### 2024-01-02")
    by reflexivity.
  assert (H2 : lit "### 2024-01-02" <> []) by discriminate.
  assert (H3 : Forall (fun l => ~ isTarget (lit "### 2024-01-02") l)
                 [lit "- [x] a"])
    by (repeat constructor; by vm_compute).
  split; [exact H1|split; [exact H2|split; [exact H3|]]].
  exact (eq_trans (mergeLines_header_once todayArchive [lit "- [x] a"]
                     (lit "### 2024-01-02") H1 H2 H3) eq_refl).
Defined.

(** X9: the section of the day is found again only if the header is its own
    trim.  When the formatted date makes a header with white space at an end
    (an empty date gives [### ] with its final space), no line of any archive
    is the header up to trimming, and every merge appends a new section at
    the end, also to an archive that a merge of the same day has written. *)
Theorem mergeLines_untrimmed_header
    (archive tasks : list jsstring) (dateHeader : jsstring) :
  trim dateHeader <> dateHeader ->
  mergeLines archive tasks dateHeader
  = archive ++ match archive with [] => [] | _ :: _ => [[]] end
    ++ dateHeader :: tasks.
Proof.
  intros Hh. apply mergeLines_no_target.
  apply Forall_forall. intros l _ Hl. unfold isTarget in Hl.
  apply Hh. rewrite <- Hl. apply trim_idem.
Qed.

(** An instance of X9: an empty formatted date, twice. *)
Lemma mergeLines_untrimmed_header_witness :
  trim (lit "### ") <> lit "### "
  /\ mergeLines (mergeLines [] [lit "- [x] a"] (lit "### "))
       [lit "- [x] b"] (lit "### ")
     = [lit "### "; lit "- [x] a"; []; lit "### "; lit "- [x] b"].
Proof.
  assert (H : trim (lit "### ") <> lit "### ") by discriminate.
  split; [exact H|].
  exact (eq_trans (mergeLines_untrimmed_header
                     (mergeLines [] [lit "- [x] a"] (lit "### "))
                     [lit "- [x] b"] (lit "### ") H) eq_refl).
Defined.

(** ** [checkRepeatTaskDates] on the vault *)

Module CheckMore.

Lemma rolled_plain today lines :
  Forall (fun l => trim l <> REPEAT_HEADER) lines ->
  rolled today false lines = lines /\ anyRewrite today false lines = false.
Proof.
  intros H. induction H as [|l ls Hl _ [IH1 IH2]]; [done|].
  cbn [rolled anyRewrite].
  assert (Hn : nextSection false l = false).
  { unfold nextSection. repeat case_decide; try done.
    by destruct (startsWith l HEADER_MARK). }
  rewrite Hn, IH1, IH2. by unfold checkedOutput, rewrites.
Qed.

Lemma checkRepeatTaskDates_spec (settings : MinimalTaskSettings) (m : Moment)
    (vault : Vault) (content : jsstring) :
  vault !! taskFile settings = Some content ->
  let today := format_now m (effectiveDateFormat settings) in
  checkRepeatTaskDates settings m vault
  = if anyRewrite today false (split_nl content) then
      <[taskFile settings := join_nl (rolled today false (split_nl content))]>
        vault
    else vault.
Proof.
  intros Hv today. unfold checkRepeatTaskDates, rollCompletedToday.
  rewrite Hv. cbv zeta. rewrite checkLoop_rolled.
  by cbn [updatedLines checkInRepeat hasChanges checkInit app orb].
Qed.

Lemma split_join_rolled today content :
  split_nl (join_nl (rolled today false (split_nl content)))
  = rolled today false (split_nl content).
Proof.
  apply split_join.
  - intros E. apply (f_equal length) in E.
    rewrite rolled_length in E.
    pose proof (split_nl_nonempty content).
    by destruct (split_nl content).
  - apply rolled_nonl, split_nl_lines.
Qed.

End CheckMore.

Import CheckMore.

(** X10: [checkRepeatTaskDates] is idempotent on every vault: run again on
    the vault it has left, it writes nothing. *)
Theorem checkRepeatTaskDates_idempotent
    (settings : MinimalTaskSettings) (m : Moment) (vault : Vault) :
  checkRepeatTaskDates settings m (checkRepeatTaskDates settings m vault)
  = checkRepeatTaskDates settings m vault.
Proof.
  destruct (vault !! taskFile settings) as [content|] eqn:Hv.
  - rewrite (checkRepeatTaskDates_spec settings m vault content Hv). cbv zeta.
    set (today := format_now m (effectiveDateFormat settings)).
    destruct (anyRewrite today false (split_nl content)) eqn:Ha.
    + erewrite checkRepeatTaskDates_spec by apply lookup_insert_eq.
      cbv zeta. fold today. rewrite split_join_rolled.
      by destruct (rolled_idempotent today false (split_nl content))
        as [_ ->].
    + rewrite (checkRepeatTaskDates_spec settings m vault content Hv).
      cbv zeta. fold today. rewrite Ha. reflexivity.
  - assert (E : checkRepeatTaskDates settings m vault = vault)
      by (unfold checkRepeatTaskDates; by rewrite Hv).
    by rewrite !E.
Qed.

(** X11: a task document in which no line is the header of the recurring
    section is never rewritten by [checkRepeatTaskDates], whatever checked
    tasks and dates it holds. *)
Theorem checkRepeatTaskDates_needs_recurring
    (settings : MinimalTaskSettings) (m : Moment) (vault : Vault)
    (content : jsstring) :
  vault !! taskFile settings = Some content ->
  Forall (fun l => trim l <> REPEAT_HEADER) (split_nl content) ->
  checkRepeatTaskDates settings m vault = vault.
Proof.
  intros Hv H.
  rewrite (checkRepeatTaskDates_spec settings m vault content Hv). cbv zeta.
  by destruct (rolled_plain (format_now m (effectiveDateFormat settings))
                 _ H) as [_ ->].
Qed.

(** An instance of X11: a checked task with today's date under the general
    header. *)
Lemma checkRepeatTaskDates_needs_recurring_witness :
  ({[ lit "task.md" :=
        GENERAL_HEADER ++ 10%N :: lit "- [x] a (2024-01-02)" ]} : Vault)
    !! taskFile DEFAULT_SETTINGS
  = Some (GENERAL_HEADER ++ 10%N :: lit "- [x] a (2024-01-02)")
  /\ Forall (fun l => trim l <> REPEAT_HEADER)
       (split_nl (GENERAL_HEADER ++ 10%N :: lit "- [x] a (2024-01-02)"))
  /\ checkRepeatTaskDates DEFAULT_SETTINGS exampleMoment
       {[ lit "task.md" :=
            GENERAL_HEADER ++ 10%N :: lit "- [x] a (2024-01-02)" ]}
     = {[ lit "task.md" :=
            GENERAL_HEADER ++ 10%N :: lit "- [x] a (2024-01-02)" ]}.
Proof.
  assert (H1 : ({[ lit "task.md" :=
        GENERAL_HEADER ++ 10%N :: lit "- [x] a (2024-01-02)" ]} : Vault)
      !! taskFile DEFAULT_SETTINGS
    = Some (GENERAL_HEADER ++ 10%N :: lit "- [x] a (2024-01-02)"))
    by reflexivity.
  assert (H2 : Forall (fun l => trim l <> REPEAT_HEADER)
       (split_nl (GENERAL_HEADER ++ 10%N :: lit "- [x] a (2024-01-02)")))
    by (vm_compute; repeat constructor; discriminate).
  split; [exact H1|split; [exact H2|]].
  exact (checkRepeatTaskDates_needs_recurring DEFAULT_SETTINGS exampleMoment
           _ _ H1 H2).
Defined.

(** X12: [checkRepeatTaskDates] writes the task document only, and keeps its
    number of lines: every other file has the same content afterwards, and
    the task document, if there is one, is still there with as many lines as
    before. *)
Theorem checkRepeatTaskDates_frame
    (settings : MinimalTaskSettings) (m : Moment) (vault : Vault)
    (p : jsstring) :
  (p <> taskFile settings ->
   checkRepeatTaskDates settings m vault !! p = vault !! p)
  /\ (forall content,
        vault !! taskFile settings = Some content ->
        exists content',
          checkRepeatTaskDates settings m vault !! taskFile settings
          = Some content'
          /\ length (split_nl content') = length (split_nl content)).
Proof.
  split.
  - intros Hp. unfold checkRepeatTaskDates.
    destruct (vault !! taskFile settings) as [content|]; [|done].
    cbv zeta. destruct (hasChanges _); [|done].
    by rewrite lookup_insert_ne.
  - intros content Hv.
    rewrite (checkRepeatTaskDates_spec settings m vault content Hv). cbv zeta.
    destruct (anyRewrite _ false (split_nl content)).
    + rewrite lookup_insert_eq. eexists. split; [done|].
      by rewrite split_join_rolled, rolled_length.
    + by exists content.
Qed.

(** An instance of X12: the archive beside a task document that the checker
    rewrites. *)
Lemma checkRepeatTaskDates_frame_witness :
  lit "task_done.md" <> taskFile DEFAULT_SETTINGS
  /\ checkRepeatTaskDates DEFAULT_SETTINGS exampleMoment
       (<[ lit "task_done.md" := lit "### 2024-01-01" ]>
          {[ lit "task.md" := REPEAT_HEADER ++ 10%N :: render todayTask ]})
     !! lit "task_done.md"
     = Some (lit "### 2024-01-01").
Proof.
  assert (H : lit "task_done.md" <> taskFile DEFAULT_SETTINGS)
    by discriminate.
  split; [exact H|].
  exact (proj1 (checkRepeatTaskDates_frame DEFAULT_SETTINGS exampleMoment
                  (<[ lit "task_done.md" := lit "### 2024-01-01" ]>
                     {[ lit "task.md" :=
                          REPEAT_HEADER ++ 10%N :: render todayTask ]})
                  (lit "task_done.md")) H).
Defined.

(** ** The task text of a line without annotation *)

Module TextMore.

Local Open Scope N_scope.

Lemma ws_not_close c : is_ws c = true -> (c =? 41) = false.
Proof.
  intros H. destruct (N.eqb_spec c 41) as [->|]; [|done].
  vm_compute in H. discriminate.
Qed.

Lemma stripAnnot_allws w : allws w -> stripAnnot w = w.
Proof.
  induction w as [|c w IH]; [done|].
  intros [Hc Hw]%allws_cons. cbn [stripAnnot].
  rewrite (ws_not_open _ Hc). cbn [andb]. by rewrite IH.
Qed.

Lemma trim_last s body d : trim s = body ++ [d] -> is_ws d = false.
Proof.
  unfold trim, trimEnd. intros H. apply (f_equal (@rev N)) in H.
  rewrite rev_involutive, rev_app_distr in H. cbn [rev app] in H.
  by apply trimStart_head in H.
Qed.

Lemma closed_snoc_inv body d :
  closed (body ++ [d]) = true -> (d =? 41) = false ->
  closed body = true /\ (d =? 40) = false.
Proof.
  intros H Hd. induction body as [|c body IH].
  - cbn in H. by destruct (d =? 40).
  - cbn [app closed] in *. apply andb_true_iff in H as [Hc H].
    destruct (IH H) as [-> ->]. split; [|done]. rewrite andb_true_r.
    destruct (c =? 40); [|done].
    rewrite existsb_app in Hc. cbn [existsb] in Hc.
    by rewrite Hd, !orb_false_r in Hc.
Qed.

Lemma trim_nil_allws s : trim s = [] -> allws s.
Proof.
  unfold trim. destruct (trimStart s) as [|c r] eqn:E.
  - intros _. by apply trimStart_nil_allws.
  - apply trimStart_head in E. by rewrite trimEnd_cons_nonws.
Qed.

End TextMore.

Import TextMore.

(** X14: a checked task line without annotation keeps its whole text: for a
    line made of indentation, marker, check box and a text that has no white
    space around it, whose parentheses are closed and that does not end with a
    closing parenthesis, followed by white space only, the task text is that
    text. *)
Theorem taskText_without_annotation
    (ind : jsstring) (m : N) (gp : jsstring) (x : N)
    (pd txt tr : jsstring) :
  allws ind -> is_marker m = true -> gp <> [] -> allws gp ->
  is_x x = true -> allws pd ->
  trim txt = txt -> closed txt = true -> last txt <> Some 41%N ->
  allws tr ->
  taskText (ind ++ m :: gp ++ 91%N :: x :: 93%N :: pd ++ txt ++ tr) = txt.
Proof.
  intros Hi Hm Hne Hg Hx Hp Ht Hc Hl Htr.
  unfold taskText, stripChecked. rewrite matchChecked_shape by done.
  rewrite trimStart_app_ws by done.
  destruct (decide (txt = [])) as [->|Hn].
  - cbn [app]. rewrite trimStart_allws by done. done.
  - destruct (trim_fixed_ends txt Hn Ht) as [Hs _].
    rewrite trimStart_app_keep by (by rewrite Hs). rewrite Hs.
    destruct (exists_last Hn) as (body & d & ->).
    rewrite last_snoc in Hl.
    assert (Hd : (d =? 41)%N = false).
    { destruct (N.eqb_spec d 41) as [->|]; [done|done]. }
    pose proof (trim_last _ _ _ Ht) as Hw.
    destruct (closed_snoc_inv body d Hc Hd) as [Hcb Hd40].
    rewrite <- app_assoc. rewrite stripAnnot_closed; [|done|].
    + cbn [app stripAnnot]. rewrite Hd40. cbn [andb].
      rewrite stripAnnot_allws by done.
      change (body ++ d :: tr) with (body ++ [d] ++ tr).
      rewrite app_assoc. by rewrite trim_app_ws_r.
    + cbn [app forallb]. by rewrite Hw.
Qed.

(** An instance of X14: a text with a parenthesis inside. *)
Lemma taskText_without_annotation_witness :
  allws (lit " ") /\ is_marker 42%N = true /\ lit "  " <> []
  /\ allws (lit "  ") /\ is_x 120%N = true
  /\ trim (lit "Buy milk (2 l) today") = lit "Buy milk (2 l) today"
  /\ closed (lit "Buy milk (2 l) today") = true
  /\ last (lit "Buy milk (2 l) today") <> Some 41%N
  /\ taskText (lit " *  [x] Buy milk (2 l) today  ")
     = lit "Buy milk (2 l) today".
Proof.
  assert (H1 : allws (lit " ")) by reflexivity.
  assert (H2 : is_marker 42%N = true) by reflexivity.
  assert (H3 : lit "  " <> []) by discriminate.
  assert (H4 : allws (lit "  ")) by reflexivity.
  assert (H5 : is_x 120%N = true) by reflexivity.
  assert (H6 : trim (lit "Buy milk (2 l) today") = lit "Buy milk (2 l) today")
    by reflexivity.
  assert (H7 : closed (lit "Buy milk (2 l) today") = true) by reflexivity.
  assert (H8 : last (lit "Buy milk (2 l) today") <> Some 41%N)
    by discriminate.
  repeat (split; [assumption|]).
  exact (taskText_without_annotation (lit " ") 42%N (lit "  ") 120%N
           (lit " ") (lit "Buy milk (2 l) today") (lit "  ")
           H1 H2 H3 H4 H5 H1 H6 H7 H8 H4).
Defined.

(** ** The settings tab *)

(** X15: the date format field stores its value trimmed, so a value that is
    empty or white space only makes the plugin use [YYYY-MM-DD], and any
    other value is used without the white space around it. *)
Theorem dateFormat_field_default
    (value : jsstring) (settings : MinimalTaskSettings) :
  effectiveDateFormat (onDateFormatChange value settings)
  = if forallb is_ws value then lit "YYYY-MM-DD" else trim value.
Proof.
  unfold effectiveDateFormat, onDateFormatChange. cbn [dateFormat].
  destruct (trim value) as [|c r] eqn:E.
  - apply trim_nil_allws in E. unfold allws in E. by rewrite E.
  - destruct (forallb is_ws value) eqn:Ew; [|done].
    by rewrite (trim_allws value Ew) in E.
Qed.

(** ** The earlier version of the plugin *)

Module EarlierFacts.

Lemma extract_fold time lines st :
  fold_left (V20250412.extractStep time) lines st
  = {| V20250412.remaining :=
         V20250412.remaining st
         ++ List.filter (fun l => negb (testChecked l)) lines;
       V20250412.doneTasks :=
         V20250412.doneTasks st
         ++ map (fun l => stamped time (trim l))
              (List.filter testChecked lines) |}.
Proof.
  revert st. induction lines as [|l ls IH]; intros st; cbn [fold_left].
  - cbn [List.filter map]. rewrite !app_nil_r. by destruct st.
  - rewrite IH. unfold V20250412.extractStep. cbn [List.filter].
    destruct (testChecked l);
      cbn [negb map V20250412.remaining V20250412.doneTasks];
      by rewrite <- ?app_assoc.
Qed.

Lemma filter_unchecked_again lines :
  List.filter testChecked
    (List.filter (fun l => negb (testChecked l)) lines) = [].
Proof.
  induction lines as [|l ls IH]; [done|]. cbn [List.filter].
  destruct (testChecked l) eqn:E; cbn [negb List.filter]; [done|].
  by rewrite E.
Qed.

Lemma filter_nonl (f : jsstring -> bool) lines :
  Forall nonl lines -> Forall nonl (List.filter f lines).
Proof.
  intros H. induction H as [|l ls Hl _ IH]; [constructor|].
  cbn [List.filter]. destruct (f l); [by constructor|done].
Qed.

End EarlierFacts.

Import EarlierFacts.

(** X17: the earlier version splits the task document in two: the kept
    lines are the lines that are not checked tasks, the completed lines are
    the checked ones trimmed and followed by the time of the pass, both in
    their order, and together they are as many as the lines. *)
Theorem earlier_extract_partition (time : jsstring) (lines : list jsstring) :
  V20250412.remaining (V20250412.extract time lines)
  = List.filter (fun l => negb (testChecked l)) lines
  /\ V20250412.doneTasks (V20250412.extract time lines)
     = map (fun l => stamped time (trim l)) (List.filter testChecked lines)
  /\ length (V20250412.remaining (V20250412.extract time lines))
     + length (V20250412.doneTasks (V20250412.extract time lines))
     = length lines.
Proof.
  unfold V20250412.extract. rewrite extract_fold.
  cbn [V20250412.remaining V20250412.doneTasks V20250412.extractInit app].
  repeat split. rewrite length_map.
  induction lines as [|l ls IH]; [done|]. cbn [List.filter].
  destruct (testChecked l); cbn [negb length]; lia.
Qed.

(** X18: the two versions agree where the later one has nothing new to do.
    On every task document the earlier version completes the lines that the
    later one completes, each followed by the time; and on a document without
    the header of the recurring section both keep the same lines. *)
Theorem earlier_and_later_extract
    (time tomorrow : jsstring) (lines : list jsstring) :
  V20250412.doneTasks (V20250412.extract time lines)
  = map (stamped time) (doneTasks (extract tomorrow lines))
  /\ (Forall (fun l => trim l <> REPEAT_HEADER) lines ->
      V20250412.remaining (V20250412.extract time lines)
      = remaining (extract tomorrow lines)).
Proof.
  unfold V20250412.extract, extract. rewrite extract_fold, doneTasks_fold.
  cbn [V20250412.remaining V20250412.doneTasks V20250412.extractInit
       doneTasks extractInit app].
  split.
  - by rewrite map_map.
  - intros H. by rewrite remaining_fold_plain.
Qed.

(** An instance of X18: a document with a general section. *)
Lemma earlier_and_later_extract_witness :
  Forall (fun l => trim l <> REPEAT_HEADER)
    [GENERAL_HEADER; lit "- [x] a"; lit "- [ ] b"]
  /\ V20250412.remaining
       (V20250412.extract (lit "09:30")
          [GENERAL_HEADER; lit "- [x] a"; lit "- [ ] b"])
     = remaining (extract (lit "2024-01-03")
                    [GENERAL_HEADER; lit "- [x] a"; lit "- [ ] b"]).
Proof.
  assert (H : Forall (fun l => trim l <> REPEAT_HEADER)
                [GENERAL_HEADER; lit "- [x] a"; lit "- [ ] b"])
    by (repeat constructor; by vm_compute).
  split; [exact H|].
  exact (proj2 (earlier_and_later_extract (lit "09:30") (lit "2024-01-03")
                  [GENERAL_HEADER; lit "- [x] a"; lit "- [ ] b"]) H).
Defined.

(** X19: a pass of the earlier version settles: run again on the vault it has
    left, it writes nothing, whatever the date and time formats give, as long
    as the archive is another file than the task document.  Both of its
    handlers can so be raised by its own writes without a further rewrite. *)
Theorem earlier_processTaskFile_twice
    (settings : V20250412.MinimalTaskSettings) (m : Moment)
    (file : jsstring) (vault : Vault) :
  file <> V20250412.doneFile settings ->
  V20250412.processTaskFile settings m file
    (V20250412.processTaskFile settings m file vault)
  = V20250412.processTaskFile settings m file vault.
Proof.
  intros Hne. unfold V20250412.processTaskFile at 2 3.
  destruct (vault !! file) as [content|] eqn:Hv.
  - cbv zeta.
    set (time := format_now m _).
    destruct (V20250412.doneTasks (V20250412.extract time (split_nl content)))
      as [|d ds] eqn:Hd.
    + unfold V20250412.processTaskFile. rewrite Hv. cbv zeta. fold time.
      by rewrite Hd.
    + set (K := V20250412.remaining
                  (V20250412.extract time (split_nl content))).
      assert (HK : K = List.filter (fun l => negb (testChecked l))
                         (split_nl content)).
      { unfold K, V20250412.extract. by rewrite extract_fold. }
      assert (Hfile : forall (w : Vault) c,
        w !! file = Some (join_nl K) ->
        (<[V20250412.doneFile settings := c]> w) !! file
        = Some (join_nl K)).
      { intros w c Hw. by rewrite lookup_insert_ne. }
      assert (E : V20250412.doneTasks
                    (V20250412.extract time (split_nl (join_nl K))) = []).
      { unfold V20250412.extract. rewrite extract_fold.
        cbn [V20250412.doneTasks V20250412.extractInit app].
        destruct K as [|k K'] eqn:EK; [reflexivity|].
        rewrite split_join; [|done|].
        - rewrite HK. by rewrite filter_unchecked_again.
        - rewrite HK. apply filter_nonl, split_nl_lines. }
      unfold V20250412.processTaskFile.
      destruct (<[file:=join_nl K]> vault !! V20250412.doneFile settings)
        as [c|] eqn:Hdone.
      * rewrite Hdone. rewrite Hfile by apply lookup_insert_eq.
        cbv zeta. fold time. by rewrite E.
      * rewrite lookup_insert_eq.
        rewrite Hfile by (apply Hfile, lookup_insert_eq).
        cbv zeta. fold time. by rewrite E.
  - unfold V20250412.processTaskFile. by rewrite Hv.
Qed.

(** An instance of X19: a vault without archive. *)
Lemma earlier_processTaskFile_twice_witness :
  lit "task.md" <> V20250412.doneFile earlierSettings
  /\ V20250412.processTaskFile earlierSettings earlierMoment (lit "task.md")
       {[ lit "task.md" := lit "- [x] a" ++ 10%N :: lit "- [ ] b" ]}
     = {[ lit "task.md" := lit "- [ ] b";
          lit "task_done.md" := lit "### 2024-01-02" ++ 10%N
                                :: lit "- [x] a (09:30)" ]}
  /\ V20250412.processTaskFile earlierSettings earlierMoment (lit "task.md")
       (V20250412.processTaskFile earlierSettings earlierMoment
          (lit "task.md")
          {[ lit "task.md" := lit "- [x] a" ++ 10%N :: lit "- [ ] b" ]})
     = V20250412.processTaskFile earlierSettings earlierMoment (lit "task.md")
         {[ lit "task.md" := lit "- [x] a" ++ 10%N :: lit "- [ ] b" ]}.
Proof.
  assert (H : lit "task.md" <> V20250412.doneFile earlierSettings)
    by discriminate.
  split; [exact H|split; [by vm_compute|]].
  exact (earlier_processTaskFile_twice earlierSettings earlierMoment
           (lit "task.md") _ H).
Defined.

(** ** More on the later version *)

(** X13: [appendDoneTasks] writes the archive only: the archive exists
    afterwards, its content has no white space at its start or its end (it is
    its own trim), and every other file has the same content as before. *)
Theorem appendDoneTasks_postcondition
    (settings : MinimalTaskSettings) (m : Moment) (tasks : list jsstring)
    (fmt : jsstring) (vault : Vault) (p : jsstring) :
  (exists content,
      appendDoneTasks settings m tasks fmt vault !! doneFile settings
      = Some content
      /\ trim content = content)
  /\ (p <> doneFile settings ->
      appendDoneTasks settings m tasks fmt vault !! p = vault !! p).
Proof.
  split; [|apply appendDoneTasks_other].
  unfold appendDoneTasks.
  destruct (vault !! doneFile settings) as [c|] eqn:E.
  - rewrite E, lookup_insert_eq. eexists. split; [done|apply trim_idem].
  - rewrite !lookup_insert_eq. eexists. split; [done|apply trim_idem].
Qed.

(** An instance of X13: the task document beside the archive. *)
Lemma appendDoneTasks_postcondition_witness :
  lit "task.md" <> doneFile DEFAULT_SETTINGS
  /\ appendDoneTasks DEFAULT_SETTINGS exampleMoment [drinkWater]
       (lit "YYYY-MM-DD") {[ lit "task.md" := mixedDocument ]}
     !! lit "task.md"
     = Some mixedDocument.
Proof.
  assert (H : lit "task.md" <> doneFile DEFAULT_SETTINGS) by discriminate.
  split; [exact H|].
  exact (proj2 (appendDoneTasks_postcondition DEFAULT_SETTINGS exampleMoment
                  [drinkWater] (lit "YYYY-MM-DD")
                  {[ lit "task.md" := mixedDocument ]} (lit "task.md")) H).
Defined.

(** X20: only a line that starts with the header mark at its first column
    ends the recurring section.  After an indented line that is not one of
    the two named headers the section state of the extraction is what it was,
    even if the line reads as a header; after an unindented line starting
    with the mark that is not the recurring header, the state is the general
    section. *)
Theorem extract_section_boundary
    (tomorrow : jsstring) (pre : list jsstring) (w rest : jsstring) :
  w <> [] -> allws w ->
  trim (w ++ rest) <> REPEAT_HEADER ->
  trim (w ++ rest) <> GENERAL_HEADER ->
  inRepeatSection (extract tomorrow (pre ++ [w ++ rest]))
  = inRepeatSection (extract tomorrow pre)
  /\ (trim (HEADER_MARK ++ rest) <> REPEAT_HEADER ->
      inRepeatSection (extract tomorrow (pre ++ [HEADER_MARK ++ rest]))
      = false).
Proof.
  intros Hne Hw H1 H2. unfold extract. rewrite !fold_left_app.
  cbn [fold_left]. split.
  - unfold extractStep. repeat case_decide; try done.
    assert (Hs : startsWith (w ++ rest) HEADER_MARK = false).
    { destruct w as [|c w]; [done|].
      apply allws_cons in Hw as [Hc _].
      change HEADER_MARK with (35%N :: tl HEADER_MARK).
      cbn [app startsWith].
      destruct (N.eqb_spec 35 c) as [<-|]; [|done].
      vm_compute in Hc. discriminate. }
    rewrite Hs. by repeat case_match.
  - intros H3. unfold extractStep. rewrite startsWith_app.
    by repeat case_decide.
Qed.

(** An instance of X20: an indented header inside the recurring section. *)
Lemma extract_section_boundary_witness :
  lit "  " <> [] /\ allws (lit "  ")
  /\ trim (lit "  " ++ lit "### Later") <> REPEAT_HEADER
  /\ trim (lit "  " ++ lit "### Later") <> GENERAL_HEADER
  /\ inRepeatSection (extract (lit "2024-01-03")
                        ([REPEAT_HEADER] ++ [lit "  " ++ lit "### Later"]))
     = true.
Proof.
  assert (H1 : lit "  " <> []) by discriminate.
  assert (H2 : allws (lit "  ")) by reflexivity.
  assert (H3 : trim (lit "  " ++ lit "### Later") <> REPEAT_HEADER)
    by discriminate.
  assert (H4 : trim (lit "  " ++ lit "### Later") <> GENERAL_HEADER)
    by discriminate.
  repeat (split; [assumption|]).
  exact (eq_trans (proj1 (extract_section_boundary (lit "2024-01-03")
                            [REPEAT_HEADER] (lit "  ") (lit "### Later")
                            H1 H2 H3 H4)) eq_refl).
Defined.

(** X21: extraction and merge compose: every line that a pass completes is,
    in the lines merged into any archive, below a line that is the header of
    the day with no header line between the two, when the header is its own
    trim. *)
Theorem completed_lines_under_header
    (tomorrow dateHeader : jsstring) (lines archive : list jsstring)
    (t : jsstring) :
  trim dateHeader = dateHeader ->
  t ∈ doneTasks (extract tomorrow lines) ->
  underSection dateHeader t
    (mergeLines archive (doneTasks (extract tomorrow lines)) dateHeader).
Proof.
  intros Hh Ht. apply merge_under_section; [done| |done].
  unfold extract. apply doneTasks_notMark. constructor.
Qed.

(** An instance of X21: the second task of a document, merged into an
    archive that has the section of the day. *)
Lemma completed_lines_under_header_witness :
  trim (lit "### 2024-01-02") = lit "### 2024-01-02"
  /\ lit "- [x] Call mom" ∈ doneTasks (extract (lit "2024-01-03")
                                         (split_nl mixedDocument))
  /\ underSection (lit "### 2024-01-02") (lit "- [x] Call mom")
       (mergeLines todayArchive
          (doneTasks (extract (lit "2024-01-03") (split_nl mixedDocument)))
          (lit "### 2024-01-02")).
Proof.
  assert (H1 : trim (lit "### 2024-01-02") = lit "### 2024-01-02")
    by reflexivity.
  assert (H2 : lit "- [x] Call mom"
               ∈ doneTasks (extract (lit "2024-01-03")
                              (split_nl mixedDocument))).
  { apply (bool_decide_unpack _). by vm_compute. }
  split; [exact H1|split; [exact H2|]].
  exact (completed_lines_under_header (lit "2024-01-03")
           (lit "### 2024-01-02") (split_nl mixedDocument) todayArchive
           (lit "- [x] Call mom") H1 H2).
Defined.

(** * The example of the specification and the form of a rewritten task *)

Module ExampleFacts.

Local Open Scope N_scope.

Lemma mergeLines_sublist archive tasks dateHeader :
  archive `sublist_of` mergeLines archive tasks dateHeader.
Proof.
  unfold mergeLines.
  destruct (mergeLoop_sublist tasks dateHeader archive mergeInit)
    as (out & Hout & Hsub).
  unfold mergeFinish. rewrite Hout. cbn [mergeInit newContent app].
  repeat case_match; auto using sublist_inserts_r.
Qed.

Lemma filter_target_nil dateHeader ls :
  Forall (fun l => ~ isTarget dateHeader l) ls ->
  filter (isTarget dateHeader) ls = [].
Proof.
  intros H. induction H as [|x l Hx _ IH]; [done|].
  by rewrite filter_cons_False.
Qed.

(** The lines of the merged archive that are the header of the day. *)
Lemma mergeLines_targets archive tasks dateHeader :
  trim dateHeader = dateHeader -> dateHeader <> [] ->
  Forall (fun l => ~ isTarget dateHeader l) tasks ->
  filter (isTarget dateHeader) (mergeLines archive tasks dateHeader)
  = match filter (isTarget dateHeader) archive with
    | [] => [dateHeader]
    | h :: hs => h :: hs
    end.
Proof.
  intros Hh Hne Ht.
  destruct (Forall_Exists_dec (fun l => ~ isTarget dateHeader l)
              (isTarget dateHeader)
              (fun l => match decide (isTarget dateHeader l) with
                        | left p => right p
                        | right n => left n
                        end) archive) as [Hall|HE].
  - rewrite mergeLines_no_target by done.
    rewrite (filter_target_nil _ archive Hall), !filter_app.
    rewrite (filter_target_nil _ archive Hall).
    rewrite filter_cons_True by done.
    rewrite (filter_target_nil _ tasks Ht).
    rewrite (filter_target_nil _
               (match archive with [] => [] | _ :: _ => [[]] end)); [done|].
    destruct archive; repeat constructor.
    unfold isTarget. change (trim []) with (@nil N). congruence.
  - rewrite mergeLines_found by done. rewrite mergeOut_targets by done.
    destruct (filter (isTarget dateHeader) archive) eqn:E; [|done].
    exfalso. apply Exists_exists in HE as (x & Hx & HP).
    exact (filter_nil_not_elem_of _ _ _ E HP Hx).
Qed.

(** The merge into an archive with one section of the day. *)
Lemma mergeLines_one_section tasks dateHeader pre h body rest :
  isTarget dateHeader h ->
  Forall (fun l => ~ isTarget dateHeader l) (pre ++ body ++ rest) ->
  Forall notMark body -> startsSection rest ->
  mergeLines (pre ++ h :: body ++ rest) tasks dateHeader
  = pre ++ h :: body ++ tasks ++ rest.
Proof.
  intros Hh [Hpre Hbr]%Forall_app Hb Hr.
  unfold mergeLines. rewrite fold_left_app.
  rewrite (mergeLoop_plain _ _ pre) by (auto; by left).
  by rewrite mergeLoop_section.
Qed.

(** A completed line is not a header of the archive. *)
Lemma doneTasks_not_target tomorrow lines dateHeader :
  startsWith dateHeader HEADER_MARK = true ->
  Forall (fun l => ~ isTarget dateHeader l)
    (doneTasks (extract tomorrow lines)).
Proof.
  intros Hm.
  assert (H1 : Forall notMark (doneTasks (extract tomorrow lines)))
    by (apply doneTasks_notMark; constructor).
  assert (H2 : Forall (fun t => t <> [] /\ trim t = t)
                 (doneTasks (extract tomorrow lines)))
    by (apply doneTasks_trimmed; constructor).
  rewrite Forall_forall in H1, H2. apply Forall_forall.
  intros t Ht Htarget. unfold isTarget in Htarget.
  destruct (H2 t Ht) as [_ E]. rewrite E in Htarget. subst t.
  specialize (H1 _ Ht). unfold notMark in H1. congruence.
Qed.

(** The task text does not depend on the indentation, the marker, the white
    space after it or the case of the mark. *)
Lemma taskText_shape ind m gp x rest :
  allws ind -> is_marker m = true -> gp <> [] -> allws gp ->
  is_x x = true ->
  taskText (ind ++ m :: gp ++ 91 :: x :: 93 :: rest)
  = trim (stripAnnot (trimStart rest)).
Proof.
  intros Hi Hm Hne Hg Hx. unfold taskText, stripChecked.
  by rewrite matchChecked_shape.
Qed.

Lemma taskText_canonical rest :
  taskText (lit "- [x]" ++ rest) = trim (stripAnnot (trimStart rest)).
Proof. reflexivity. Qed.

Lemma trimStart_before_nonws body c y :
  is_ws c = false ->
  trimStart (body ++ c :: y) = trimStart body ++ c :: y.
Proof.
  intros Hc. destruct (trimStart body) as [|d r] eqn:E.
  - apply trimStart_nil_allws in E.
    rewrite trimStart_app_ws by done. by apply trimStart_nonws.
  - rewrite trimStart_app_keep by (by rewrite E). by rewrite E.
Qed.

(** A group that the pattern matches at the end is cut, with what the
    leftmost match takes before it. *)
Lemma stripAnnot_group_prefix b annot tr :
  annot <> [] -> noclose annot = true -> allws tr ->
  exists p q, b = p ++ q /\ stripAnnot (b ++ 40 :: annot ++ 41 :: tr) = p.
Proof.
  intros Hne Ha Htr. induction b as [|c b (p & q & E & IH)].
  - exists [], []. split; [done|]. by apply stripAnnot_annot.
  - cbn [app stripAnnot].
    destruct ((c =? 40) && annotTail (b ++ 40 :: annot ++ 41 :: tr) false).
    + by exists [], (c :: b).
    + exists (c :: p), q. split; [by rewrite E|by rewrite IH].
Qed.

(** After two closing parentheses in a row no group can end. *)
Lemma annotTail_closed_twice x tr ne :
  annotTail (x ++ 41 :: 41 :: tr) ne = false.
Proof.
  revert ne. induction x as [|c x IH]; intros ne; cbn [app annotTail].
  - change (41 =? 41) with true. cbv iota. cbn [forallb].
    change (is_ws 41) with false. apply andb_false_r.
  - destruct (c =? 41); [|apply IH].
    rewrite forallb_app. cbn [forallb]. change (is_ws 41) with false.
    cbn [andb]. by rewrite !andb_false_r.
Qed.

Lemma stripAnnot_closed_twice x tr :
  allws tr -> stripAnnot (x ++ 41 :: 41 :: tr) = x ++ 41 :: 41 :: tr.
Proof.
  intros Htr. induction x as [|c x IH]; cbn [app stripAnnot].
  - change (41 =? 40) with false. cbn [andb]. cbv iota.
    by rewrite stripAnnot_allws.
  - by rewrite annotTail_closed_twice, andb_false_r, IH.
Qed.

Lemma trim_trimStart_app body y :
  trim (trimStart body ++ y) = trim (body ++ y).
Proof.
  destruct (trimStart_decompose body) as (w & Hw & Eb).
  rewrite Eb at 2. rewrite <- app_assoc. by rewrite (trim_app_ws_l w).
Qed.

Lemma closed_suffix w s : closed (w ++ s) = true -> closed s = true.
Proof.
  induction w as [|c w IH]; [done|]. cbn [app closed].
  intros [_ H]%andb_true_iff. auto.
Qed.

Lemma trim_trimStart s : trim (trimStart s) = trim s.
Proof. unfold trim. by rewrite trimStart_idem. Qed.

End ExampleFacts.

Import ExampleFacts.

(** C1: in any task document that has the checked line
    [- [x] Drink water (2024-01-01)] in its recurring section, with tomorrow
    formatted as 2024-01-03, the extraction keeps
    [- [ ] Drink water (2024-01-03)] and completes the original line.  The
    merge under the header of 2024-01-02 adds the completed lines to the
    archive, whatever the archive is: every line of the archive stays, in its
    order; the line of the example is below a header of the day with no other
    header between; no second header of the day is made; into an archive
    without the section, the section is appended after the archive; into an
    archive with the section, the completed lines go at the end of that
    section, before the next one.  On the two-line document of the example
    the pass writes the rewritten task document, and the archive with the
    line in its section: a new archive, a section appended to an older one,
    or the line added to the section of the day that is there. *)
Theorem drink_water_example
    (pre post archive : list jsstring) :
  inRepeatSection (extract (lit "2024-01-03") pre) = true ->
  let r := extract (lit "2024-01-03") (pre ++ drinkWater :: post) in
  let merged := mergeLines archive (doneTasks r) exampleHeader in
  lit "- [ ] Drink water (2024-01-03)" ∈ remaining r
  /\ drinkWater ∈ doneTasks r
  /\ archive `sublist_of` merged
  /\ underSection exampleHeader drinkWater merged
  /\ filter (isTarget exampleHeader) merged
     = match filter (isTarget exampleHeader) archive with
       | [] => [exampleHeader]
       | h :: hs => h :: hs
       end
  /\ (Forall (fun l => ~ isTarget exampleHeader l) archive ->
      merged
      = archive ++ match archive with [] => [] | _ :: _ => [[]] end
        ++ exampleHeader :: doneTasks r)
  /\ (forall before h body rest,
        archive = before ++ h :: body ++ rest ->
        isTarget exampleHeader h ->
        Forall (fun l => ~ isTarget exampleHeader l)
          (before ++ body ++ rest) ->
        Forall notMark body -> startsSection rest ->
        merged = before ++ h :: body ++ doneTasks r ++ rest)
  /\ processTaskFile DEFAULT_SETTINGS exampleMoment (lit "task.md")
       {[ lit "task.md" := exampleDocument ]}
     = {[ lit "task.md" :=
            REPEAT_HEADER ++ 10%N :: lit "- [ ] Drink water (2024-01-03)";
          lit "task_done.md" :=
            join_nl [exampleHeader; drinkWater] ]}
  /\ processTaskFile DEFAULT_SETTINGS exampleMoment (lit "task.md")
       {[ lit "task.md" := exampleDocument;
          lit "task_done.md" := join_nl olderArchive ]}
     = {[ lit "task.md" :=
            REPEAT_HEADER ++ 10%N :: lit "- [ ] Drink water (2024-01-03)";
          lit "task_done.md" :=
            join_nl [lit "### 2024-01-01"; lit "- [x] old"; [];
                     exampleHeader; drinkWater] ]}
  /\ processTaskFile DEFAULT_SETTINGS exampleMoment (lit "task.md")
       {[ lit "task.md" := exampleDocument;
          lit "task_done.md" := join_nl todayArchive ]}
     = {[ lit "task.md" :=
            REPEAT_HEADER ++ 10%N :: lit "- [ ] Drink water (2024-01-03)";
          lit "task_done.md" :=
            join_nl [lit "notes"; exampleHeader; lit "- [x] early"; [];
                     drinkWater; lit "### 2024-01-01"; lit "- [x] old"] ]}.
Proof.
  intros Hin r merged.
  assert (Hc : testChecked drinkWater = true) by reflexivity.
  assert (Hr : r = fold_left (extractStep (lit "2024-01-03")) post
                 {| remaining :=
                      remaining (extract (lit "2024-01-03") pre)
                      ++ [lit "- [ ] Drink water (2024-01-03)"];
                    doneTasks :=
                      doneTasks (extract (lit "2024-01-03") pre)
                      ++ [drinkWater];
                    inRepeatSection := true |}).
  { subst r. unfold extract in *. rewrite fold_left_app. cbn [fold_left].
    rewrite extractStep_checked by done. by rewrite Hin. }
  assert (Hd : drinkWater ∈ doneTasks r).
  { rewrite Hr, extract_fold_frame. cbn [doneTasks].
    rewrite !elem_of_app. left. right. apply list_elem_of_singleton.
    reflexivity. }
  assert (Hk : lit "- [ ] Drink water (2024-01-03)" ∈ remaining r).
  { rewrite Hr, extract_fold_frame. cbn [remaining].
    rewrite !elem_of_app. left. right. apply list_elem_of_singleton.
    reflexivity. }
  assert (Hnt : Forall (fun l => ~ isTarget exampleHeader l) (doneTasks r))
    by (subst r; by apply doneTasks_not_target).
  split; [exact Hk|split; [exact Hd|]].
  split; [apply mergeLines_sublist|].
  split.
  { apply merge_under_section; [reflexivity| |exact Hd].
    subst r. unfold extract. apply doneTasks_notMark. constructor. }
  split; [by apply mergeLines_targets|].
  split; [apply mergeLines_no_target|].
  split.
  { intros before h body rest -> Hh Hno Hb Hrest.
    by apply mergeLines_one_section. }
  split; [by vm_compute|split; by vm_compute].
Qed.

(** An instance of C1: the two-line document of the example, merged into an
    archive that has the section of the day followed by an older one. *)
Lemma drink_water_witness :
  inRepeatSection (extract (lit "2024-01-03") [REPEAT_HEADER]) = true
  /\ isTarget exampleHeader exampleHeader
  /\ Forall (fun l => ~ isTarget exampleHeader l)
       ([lit "notes"] ++ [lit "- [x] early"; []]
        ++ [lit "### 2024-01-01"; lit "- [x] old"])
  /\ Forall notMark [lit "- [x] early"; []]
  /\ startsSection [lit "### 2024-01-01"; lit "- [x] old"]
  /\ remaining (extract (lit "2024-01-03")
                  ([REPEAT_HEADER] ++ drinkWater :: []))
     = [REPEAT_HEADER; lit "- [ ] Drink water (2024-01-03)"]
  /\ mergeLines todayArchive
       (doneTasks (extract (lit "2024-01-03")
                     ([REPEAT_HEADER] ++ drinkWater :: [])))
       exampleHeader
     = [lit "notes"; exampleHeader; lit "- [x] early"; [];
        drinkWater; lit "### 2024-01-01"; lit "- [x] old"].
Proof.
  assert (H1 : inRepeatSection (extract (lit "2024-01-03") [REPEAT_HEADER])
               = true) by reflexivity.
  assert (H2 : isTarget exampleHeader exampleHeader) by reflexivity.
  assert (H3 : Forall (fun l => ~ isTarget exampleHeader l)
                 ([lit "notes"] ++ [lit "- [x] early"; []]
                  ++ [lit "### 2024-01-01"; lit "- [x] old"]))
    by (repeat constructor; by vm_compute).
  assert (H4 : Forall notMark [lit "- [x] early"; []])
    by (repeat constructor).
  assert (H5 : startsSection [lit "### 2024-01-01"; lit "- [x] old"])
    by (right; eexists _, _; split; reflexivity).
  repeat (split; [assumption|]).
  destruct (drink_water_example [REPEAT_HEADER] [] todayArchive H1)
    as (_ & _ & _ & _ & _ & _ & Hone & _).
  split; [reflexivity|].
  exact (Hone [lit "notes"] exampleHeader [lit "- [x] early"; []]
           [lit "### 2024-01-01"; lit "- [x] old"] eq_refl H2 H3 H4 H5).
Defined.

(** C10 as stated fails: a trailing group that the pattern does not match, a
    nested one or an empty one, is not discarded; it stays in the text of the
    kept line, before the new date. *)
Lemma recurring_rewrite_keeps_group_counterexample :
  remaining (extract (lit "2024-01-03")
               [REPEAT_HEADER; lit "- [x] foo (a (b))"])
  = [REPEAT_HEADER; lit "- [ ] foo (a (b)) (2024-01-03)"]
  /\ remaining (extract (lit "2024-01-03")
                  [REPEAT_HEADER; lit "- [x] foo ()"])
     = [REPEAT_HEADER; lit "- [ ] foo () (2024-01-03)"]
  /\ remaining (extract (lit "2024-01-03")
                  [REPEAT_HEADER; lit "- [x] foo (a (b))"])
     <> [REPEAT_HEADER; lit "- [ ] foo (2024-01-03)"]
  /\ remaining (extract (lit "2024-01-03")
                  [REPEAT_HEADER; lit "- [x] foo ()"])
     <> [REPEAT_HEADER; lit "- [ ] foo (2024-01-03)"].
Proof. repeat split; by vm_compute. Qed.

(** C10, amended: the kept line of a checked task of the recurring section
    has the exact form [- [ ] <text> (<tomorrow>)] from its first column,
    with a text that has no white space around it.  The text does not depend
    on the indentation, the marker, the white space after it or the case of
    the mark: it is the text of the line written [- [x]] and the same rest.
    A trailing annotation is discarded when it is a group that the pattern
    matches, an opening parenthesis, one or more characters other than the
    closing one, the closing parenthesis, then white space only: the text is
    then taken from what precedes the group, and it is all of it, trimmed,
    when the parentheses before the group are closed.  A group that the
    pattern does not match stays in the text: an empty group [()] at the
    end, and whatever ends in two closing parentheses in a row, as a group
    with another one inside. *)
Theorem recurring_rewrite_normal_form
    (tomorrow : jsstring) (pre post : list jsstring) (line : jsstring) :
  testChecked line = true ->
  inRepeatSection (extract tomorrow pre) = true ->
  (exists later,
      remaining (extract tomorrow (pre ++ line :: post))
      = remaining (extract tomorrow pre)
        ++ (lit "- [ ] " ++ taskText line ++ lit " (" ++ tomorrow ++ lit ")")
        :: later)
  /\ trim (taskText line) = taskText line
  /\ (forall ind m gp x rest,
        allws ind -> is_marker m = true -> gp <> [] -> allws gp ->
        is_x x = true ->
        line = ind ++ m :: gp ++ 91%N :: x :: 93%N :: rest ->
        taskText line = taskText (lit "- [x]" ++ rest)
        /\ (forall body annot tr,
              rest = body ++ 40%N :: annot ++ 41%N :: tr ->
              annot <> [] -> noclose annot = true -> allws tr ->
              (exists w p q,
                  body = w ++ p ++ q /\ allws w /\ taskText line = trim p)
              /\ (closed body = true -> taskText line = trim body))
        /\ (forall body tr,
              rest = body ++ 40%N :: 41%N :: tr ->
              closed body = true -> allws tr ->
              taskText line = trim (body ++ [40%N; 41%N]))
        /\ (forall body tr,
              rest = body ++ 41%N :: 41%N :: tr -> allws tr ->
              taskText line = trim (body ++ [41%N; 41%N])))
  /\ (forall t, wellFormed t = true -> line = render t ->
        taskText line = text t).
Proof.
  intros Hc Hin. split; [|split; [apply trim_idem|split]].
  - unfold extract in *. rewrite fold_left_app. cbn [fold_left].
    rewrite extract_fold_frame. cbv zeta. cbn [remaining].
    rewrite extractStep_checked by done. rewrite Hin.
    cbn [remaining]. rewrite <- app_assoc. cbn [app]. eauto.
  - intros ind m gp x rest Hi Hm Hne Hg Hx ->.
    rewrite taskText_shape by done. rewrite taskText_canonical.
    split; [done|split; [|split]].
    + intros body annot tr -> Ha1 Ha2 Htr.
      rewrite trimStart_before_nonws by reflexivity.
      destruct (trimStart_decompose body) as (w & Hw & Eb).
      split.
      * destruct (stripAnnot_group_prefix (trimStart body) annot tr
                    Ha1 Ha2 Htr) as (p & q & E & ->).
        exists w, p, q. split; [|done]. by rewrite <- E.
      * intros Hcl.
        assert (Hcl' : closed (trimStart body) = true).
        { rewrite Eb in Hcl. by apply closed_suffix in Hcl. }
        rewrite stripAnnot_closed by done.
        rewrite stripAnnot_annot by done.
        by rewrite app_nil_r, trim_trimStart.
    + intros body tr -> Hcl Htr.
      rewrite trimStart_before_nonws by reflexivity.
      destruct (trimStart_decompose body) as (w & Hw & Eb).
      assert (Hcl' : closed (trimStart body) = true).
      { rewrite Eb in Hcl. by apply closed_suffix in Hcl. }
      rewrite stripAnnot_closed by done.
      cbn [stripAnnot annotTail]. cbn [N.eqb Pos.eqb andb].
      rewrite stripAnnot_allws by done.
      change (trimStart body ++ 40%N :: 41%N :: tr)
        with (trimStart body ++ [40%N; 41%N] ++ tr).
      rewrite app_assoc, trim_app_ws_r by done.
      apply trim_trimStart_app.
    + intros body tr -> Htr.
      rewrite trimStart_before_nonws by reflexivity.
      rewrite stripAnnot_closed_twice by done.
      change (trimStart body ++ 41%N :: 41%N :: tr)
        with (trimStart body ++ [41%N; 41%N] ++ tr).
      rewrite app_assoc, trim_app_ws_r by done.
      apply trim_trimStart_app.
  - intros t Hwf ->. by apply taskText_render.
Qed.

(** An instance of the amended C10: the task of the example written with a
    star, an upper-case mark, indentation and wide spacing, whose annotation
    is discarded; and the two lines whose trailing group is kept. *)
Lemma recurring_rewrite_witness :
  testChecked (render indentedTask) = true
  /\ testChecked (lit "- [x] foo ()") = true
  /\ testChecked (lit "- [x] foo (a (b))") = true
  /\ inRepeatSection (extract (lit "2024-01-03") [REPEAT_HEADER]) = true
  /\ allws (lit "  ") /\ allws [] /\ allws (lit " ")
  /\ is_marker 42%N = true /\ is_marker 45%N = true
  /\ lit " " <> []
  /\ is_x 88%N = true /\ is_x 120%N = true
  /\ lit "2024-01-01" <> [] /\ noclose (lit "2024-01-01") = true
  /\ closed (lit "  Drink water   ") = true
  /\ closed (lit " foo ") = true
  /\ remaining (extract (lit "2024-01-03")
                  ([REPEAT_HEADER] ++ render indentedTask :: []))
     = [REPEAT_HEADER; lit "- [ ] Drink water (2024-01-03)"]
  /\ taskText (render indentedTask)
     = taskText (lit "- [x]" ++ lit "  Drink water   (2024-01-01) ")
  /\ taskText (render indentedTask) = trim (lit "  Drink water   ")
  /\ taskText (render indentedTask) = lit "Drink water"
  /\ taskText (lit "- [x] foo ()") = trim (lit " foo ()")
  /\ taskText (lit "- [x] foo (a (b))") = trim (lit " foo (a (b))").
Proof.
  assert (H1 : testChecked (render indentedTask) = true) by reflexivity.
  assert (H1a : testChecked (lit "- [x] foo ()") = true) by reflexivity.
  assert (H1b : testChecked (lit "- [x] foo (a (b))") = true)
    by reflexivity.
  assert (H2 : inRepeatSection (extract (lit "2024-01-03") [REPEAT_HEADER])
               = true) by reflexivity.
  assert (H3 : allws (lit "  ")) by reflexivity.
  assert (H3a : allws []) by reflexivity.
  assert (H6 : allws (lit " ")) by reflexivity.
  assert (H4 : is_marker 42%N = true) by reflexivity.
  assert (H4a : is_marker 45%N = true) by reflexivity.
  assert (H5 : lit " " <> []) by discriminate.
  assert (H7 : is_x 88%N = true) by reflexivity.
  assert (H7a : is_x 120%N = true) by reflexivity.
  assert (H8 : lit "2024-01-01" <> []) by discriminate.
  assert (H9 : noclose (lit "2024-01-01") = true) by reflexivity.
  assert (H10 : closed (lit "  Drink water   ") = true) by reflexivity.
  assert (H11 : closed (lit " foo ") = true) by reflexivity.
  repeat (split; [assumption|]).
  destruct (recurring_rewrite_normal_form (lit "2024-01-03") [REPEAT_HEADER] []
              (render indentedTask) H1 H2) as (_ & _ & Hshape & Htext).
  destruct (Hshape (lit "  ") 42%N (lit " ") 88%N
              (lit "  Drink water   (2024-01-01) ") H3 H4 H5 H6 H7 eq_refl)
    as (Hcanon & Hgroup & _).
  destruct (recurring_rewrite_normal_form (lit "2024-01-03") [REPEAT_HEADER] []
              (lit "- [x] foo ()") H1a H2) as (_ & _ & Hempty & _).
  destruct (Hempty [] 45%N (lit " ") 120%N (lit " foo ()")
              H3a H4a H5 H6 H7a eq_refl) as (_ & _ & Hempty' & _).
  destruct (recurring_rewrite_normal_form (lit "2024-01-03") [REPEAT_HEADER] []
              (lit "- [x] foo (a (b))") H1b H2) as (_ & _ & Hnested & _).
  destruct (Hnested [] 45%N (lit " ") 120%N (lit " foo (a (b))")
              H3a H4a H5 H6 H7a eq_refl) as (_ & _ & _ & Hnested').
  split; [reflexivity|split; [exact Hcanon|split; [|split; [|split]]]].
  - exact (proj2 (Hgroup (lit "  Drink water   ") (lit "2024-01-01")
                    (lit " ") eq_refl H8 H9 H6) H10).
  - exact (Htext indentedTask eq_refl eq_refl).
  - exact (Hempty' (lit " foo ") [] eq_refl H11 H3a).
  - exact (Hnested' (lit " foo (a (b") [] eq_refl H3a).
Defined.
